(** * Music Assistant models: media item dispatch and the player model

    A shallow embedding of [music_assistant_models/media_items/__init__.py]
    and [music_assistant_models/player.py], with the properties the
    specification states about them.

    Python values that travel in a payload ([dict[str, Any]]) are the
    inhabitants of [value]; a [dict] with string keys is a finite map
    [gmap string value]; a Python [float] is an IEEE 754 binary64 number
    ([PrimFloat.float]); a raised exception is the [Raise] case of [result]. *)

From Stdlib Require Import ZArith String Floats.
From stdpp Require Import gmap strings list fin_maps.

Set Warnings "-register-all".
Open Scope string_scope.

(** ** Payload values *)

Inductive value : Type :=
  | VNone
  | VBool (b : bool)
  | VInt (z : Z)
  | VFloat (f : float)
  | VStr (s : string)
  | VList (l : list value)
  | VDict (d : gmap string value).

Abbreviation dict := (gmap string value).

(** ** Exceptions and results *)

(** [KeyError] is what a subscript [d[k]] raises on an absent key,
    [InvalidDataError] is the repository's own error class (imported from
    [music_assistant_models.errors]); the two remaining cases are the
    decoding errors of the serialization mixin. *)
Inductive exn : Type :=
  | KeyError (key : string)
  | InvalidDataError (msg : string)
  | MissingField (field_name : string)
  | InvalidFieldValue (field_name : string).

Inductive result (A : Type) : Type :=
  | Ok (a : A)
  | Raise (e : exn).
Arguments Ok {A} a.
Arguments Raise {A} e.

Definition bind {A B} (r : result A) (k : A → result B) : result B :=
  match r with
  | Ok a => k a
  | Raise e => Raise e
  end.

Definition rmap {A B} (f : A → B) (r : result A) : result B :=
  bind r (λ a, Ok (f a)).

Declare Scope result_scope.
Delimit Scope result_scope with result.
Notation "'let!' x ':=' r 'in' k" := (bind r (λ x, k))
  (at level 10, x name, r at level 100, k at level 200) : result_scope.
Open Scope result_scope.

(** ** Dictionary operations used by the source *)

(** [k in d] *)
Definition contains (d : dict) (k : string) : bool :=
  match d !! k with
  | Some _ => true
  | None => false
  end.

(** [d[k]] *)
Definition getitem (d : dict) (k : string) : result value :=
  match d !! k with
  | Some v => Ok v
  | None => Raise (KeyError k)
  end.

(** [d.get(k)] *)
Definition dict_get (d : dict) (k : string) : value :=
  match d !! k with
  | Some v => v
  | None => VNone
  end.

(** [v == s] for a string literal [s]: only a string can be equal to one. *)
Definition eq_str (v : value) (s : string) : bool :=
  match v with
  | VStr s' => bool_decide (s' = s)
  | _ => false
  end.

(** Truth value of a payload value, as [or] and [if] test it. *)
Definition truthy (v : value) : bool :=
  match v with
  | VNone => false
  | VBool b => b
  | VInt z => negb (Z.eqb z 0)
  | VFloat f => negb (PrimFloat.eqb f 0)
  | VStr s => negb (bool_decide (s = ""))
  | VList l => negb (bool_decide (l = []))
  | VDict d => negb (bool_decide (size d = 0%nat))
  end.

(** [x or y] *)
Definition py_or (x y : value) : value := if truthy x then x else y.

(** ** Equality of Python values *)

(** [py_eq x y] is [x == y] on two objects. The model has values and no
    object identities, so the two sides are two objects even when they hold
    the same value: a [nan] is not equal to a [nan]. (A tuple, list or dict
    does not ask [==] of two elements that are one and the same object, and
    up to Python 3.12 the [__eq__] of a dataclass compares tuples of
    attributes; that shortcut on one and the same object is outside the
    model.) *)
Class PyEq (A : Type) := py_eq : A → A → bool.
Global Hint Mode PyEq ! : typeclass_instances.

Global Instance str_py_eq : PyEq string := λ s t, bool_decide (s = t).
Global Instance bool_py_eq : PyEq bool := Bool.eqb.
Global Instance int_py_eq : PyEq Z := Z.eqb.
Global Instance float_py_eq : PyEq float := PrimFloat.eqb.

Global Instance option_py_eq {T} `{PyEq T} : PyEq (option T) :=
  λ x y,
    match x, y with
    | None, None => true
    | Some a, Some b => py_eq a b
    | _, _ => false
    end.

Global Instance list_py_eq {T} `{PyEq T} : PyEq (list T) :=
  fix go (l m : list T) : bool :=
    match l, m with
    | [], [] => true
    | a :: l', b :: m' => py_eq a b && go l' m'
    | _, _ => false
    end.

(** Sets of strings and of enumeration members: equal when they have the
    same members. *)
Global Instance set_py_eq {T} `{Countable T} : PyEq (gset T) :=
  λ s t, bool_decide (s = t).

(** An [int] is equal to a [float] when they denote the same number; the
    finite float [(-1)^s * m * 2^e] is compared exactly. *)
Definition float_eq_int (f : float) (z : Z) : bool :=
  match Prim2SF f with
  | S754_zero _ => Z.eqb z 0
  | S754_finite s m e =>
      let n := if s then Z.neg m else Z.pos m in
      if (0 <=? e)%Z then Z.eqb z (n * 2 ^ e) else Z.eqb (z * 2 ^ (- e)) n
  | _ => false
  end.

(** [bool] is a subclass of [int]: [True == 1]. *)
Definition as_int (v : value) : option Z :=
  match v with
  | VBool b => Some (Z.b2z b)
  | VInt z => Some z
  | _ => None
  end.

Fixpoint value_eq (x y : value) {struct x} : bool :=
  match x, y with
  | VNone, VNone => true
  | VStr s, VStr t => py_eq s t
  | VFloat f, VFloat g => py_eq f g
  | VFloat f, (VBool _ | VInt _) => from_option (float_eq_int f) false (as_int y)
  | (VBool _ | VInt _), VFloat g => from_option (float_eq_int g) false (as_int x)
  | (VBool _ | VInt _), (VBool _ | VInt _) => bool_decide (as_int x = as_int y)
  | VList l, VList m =>
      (fix go (l m : list value) : bool :=
         match l, m with
         | [], [] => true
         | a :: l', b :: m' => value_eq a b && go l' m'
         | _, _ => false
         end) l m
  | VDict d, VDict e =>
      bool_decide (size d = size e)
      && map_fold (λ k a acc,
                     acc && match e !! k with
                            | Some b => value_eq a b
                            | None => false
                            end) true d
  | _, _ => false
  end.

Global Instance value_py_eq : PyEq value := value_eq.
Global Instance dict_py_eq : PyEq dict := λ d e, value_eq (VDict d) (VDict e).

(** No float held by the value, at any depth, is a [nan]. *)
Fixpoint value_nan_free (v : value) : bool :=
  match v with
  | VFloat f => negb (is_nan f)
  | VList l => forallb value_nan_free l
  | VDict d => map_fold (λ _ a acc, acc && value_nan_free a) true d
  | _ => true
  end.

Definition float_nan_free (o : option float) : bool :=
  match o with
  | Some f => negb (is_nan f)
  | None => true
  end.

(** * The serialization mixin *)

(** Modelled from the spec: the serialization mixin [DataClassDictMixin]
    comes from the mashumaro library and is not among the sources. It
    derives [to_dict] and [from_dict] from the declared fields of a
    dataclass: encoding keeps the declared field names, nested dataclasses
    are encoded and decoded recursively, sets and [UniqueList] travel as
    sequences, unknown keys are ignored, a missing key takes the default of
    its field and fails when the field has none. [pack] and [unpack] are
    the encoding and decoding of one attribute according to its declared
    type. The records below are typed, so [unpack] yields nothing on an
    entry that is not of the declared type; the conversions the library
    applies to such entries are outside the model. *)
Class Codec (T : Type) := {
  pack : T → value;
  unpack : value → option T;
}.
Global Hint Mode Codec ! : typeclass_instances.

Global Instance str_codec : Codec string := {|
  pack := VStr;
  unpack v := match v with VStr s => Some s | _ => None end;
|}.

Global Instance bool_codec : Codec bool := {|
  pack := VBool;
  unpack v := match v with VBool b => Some b | _ => None end;
|}.

Global Instance int_codec : Codec Z := {|
  pack := VInt;
  unpack v := match v with VInt z => Some z | _ => None end;
|}.

Global Instance float_codec : Codec float := {|
  pack := VFloat;
  unpack v := match v with VFloat f => Some f | _ => None end;
|}.

(** [T | None] *)
Global Instance option_codec {T} `{Codec T} : Codec (option T) := {|
  pack o := match o with Some x => pack x | None => VNone end;
  unpack v := match v with VNone => Some None | _ => Some <$> unpack v end;
|}.

(** [list[T]], [Sequence[T]] and [UniqueList[T]]: a sequence on the wire,
    in the order of the container. *)
Global Instance list_codec {T} `{Codec T} : Codec (list T) := {|
  pack l := VList (pack <$> l);
  unpack v := match v with VList l => mapM unpack l | _ => None end;
|}.

(** [set[T]]: a sequence on the wire. Python does not specify the order in
    which a set is listed, and two sets with the same members may be listed
    differently; the model lists the members in one order, and no property
    below rests on what that order is. *)
Global Instance set_codec {T} `{Countable T, Codec T} : Codec (gset T) := {|
  pack s := VList (pack <$> elements s);
  unpack v :=
    match v with
    | VList l => list_to_set <$> mapM unpack l
    | _ => None
    end;
|}.

(** [dict[str, Any]]: the entries pass through unchanged. *)
Global Instance dict_codec : Codec dict := {|
  pack := VDict;
  unpack v := match v with VDict d => Some d | _ => None end;
|}.

(** One declared field of a dataclass [A]: its name, how its attribute is
    encoded ([f_pack]) and compared ([f_eq]), when two instances hold the
    same attribute ([f_same]), and the two options a declaration can set:
    [compare] of [dataclasses.field] and [serialize="omit"] of
    [field_options]. *)
Record field (A : Type) : Type := Field {
  f_name : string;
  f_pack : A → value;
  f_eq : A → A → bool;
  f_same : A → A → Prop;
  f_compare : bool;
  f_omit : bool;
}.
Arguments Field {A}.
Arguments f_name {A}.
Arguments f_pack {A}.
Arguments f_eq {A}.
Arguments f_same {A}.
Arguments f_compare {A}.
Arguments f_omit {A}.

(** A field declared with its type alone, or with a default. *)
Definition fld {A T} `{Codec T, PyEq T} (name : string) (get : A → T) : field A :=
  {| f_name := name;
     f_pack x := pack (get x);
     f_eq x y := py_eq (get x) (get y);
     f_same x y := get x = get y;
     f_compare := true;
     f_omit := false |}.

(** A field declared with [compare=False] and
    [field_options(serialize="omit", deserialize=pass_through)]. *)
Definition fld_internal {A T} `{Codec T, PyEq T} (name : string) (get : A → T) : field A :=
  {| f_name := name;
     f_pack x := pack (get x);
     f_eq x y := py_eq (get x) (get y);
     f_same x y := get x = get y;
     f_compare := false;
     f_omit := true |}.

(** Modelled from the spec: the structural encoder of the mixin, absent
    from the sources. The mapping has one entry per declared field, under
    the name of the field; a field declared with [serialize="omit"] is left
    out. *)
Definition to_dict_fields {A} (fs : list (field A)) (self : A) : dict :=
  foldr (λ f d, if f_omit f then d else <[f_name f := f_pack f self]> d) ∅ fs.

(** The generated [__eq__]: the tuples of the compared fields are equal. *)
Definition dataclass_eq {A} (fs : list (field A)) (self other : A) : bool :=
  forallb (λ f, f_eq f self other) (filter (λ f, f_compare f = true) fs).

(** The names that [to_dict_fields] writes. *)
Definition serialized_names {A} (fs : list (field A)) : list string :=
  f_name <$> filter (λ f, f_omit f = false) fs.

(** The first field of a given name that is written to the payload. *)
Definition field_named {A} (fs : list (field A)) (k : string) : option (field A) :=
  head (filter (λ f, f_omit f = false ∧ f_name f = k) fs).

(** Modelled from the spec: what the mixin (absent from the sources) gives
    to a dataclass. A class comes with its fields, its generated decoder
    and the [__post_serialize__] hook, which [to_dict] applies to the
    mapping built from the fields and which is the identity unless the
    class defines one. *)
Class DataClassDictMixin (A : Type) := {
  fields : list (field A);
  from_dict : dict → result A;
  post_serialize : A → dict → dict;
}.
Global Hint Mode DataClassDictMixin ! : typeclass_instances.

Definition to_dict {A} `{DataClassDictMixin A} (self : A) : dict :=
  post_serialize self (to_dict_fields fields self).

(** A nested dataclass is encoded by its own [to_dict] and decoded by its
    own [from_dict]. *)
Definition dataclass_codec {A} `{DataClassDictMixin A} : Codec A := {|
  pack x := VDict (to_dict x);
  unpack v :=
    match v with
    | VDict d => match from_dict d with Ok x => Some x | Raise _ => None end
    | _ => None
    end;
|}.

Definition dataclass_py_eq {A} `{DataClassDictMixin A} : PyEq A :=
  dataclass_eq fields.

(** Modelled from the spec: the steps of the generated decoders of the
    mixin, absent from the sources. [decode] decodes one entry of the
    payload. *)
Definition decode {T} `{Codec T} (name : string) (v : value) : result T :=
  match unpack v with
  | Some x => Ok x
  | None => Raise (InvalidFieldValue name)
  end.

(** A field without a default: its key has to be there. *)
Definition required {T} `{Codec T} (d : dict) (name : string) : result T :=
  match d !! name with
  | Some v => decode name v
  | None => Raise (MissingField name)
  end.

(** A field with a default, taken when the key is absent. *)
Definition defaulted {T} `{Codec T} (d : dict) (name : string) (default : T) : result T :=
  match d !! name with
  | Some v => decode name v
  | None => Ok default
  end.

(** ** Laws of encodings and of equality *)

(** An attribute type whose encoding is decoded to the attribute itself. *)
Class CodecLaws (T : Type) `{Codec T} : Prop :=
  unpack_pack : ∀ x : T, unpack (pack x) = Some x.
Global Hint Mode CodecLaws ! - : typeclass_instances.

(** An attribute type none of whose values is encoded as [None], so that
    [T | None] can tell them apart from an unset attribute. *)
Class PackNotNone (T : Type) `{Codec T} : Prop :=
  pack_not_none : ∀ x : T, pack x ≠ VNone.
Global Hint Mode PackNotNone ! - : typeclass_instances.

(** A dataclass whose payload is decoded to the instance itself. *)
Class MixinLaws (A : Type) `{DataClassDictMixin A} : Prop :=
  from_dict_to_dict : ∀ x : A, from_dict (to_dict x) = Ok x.
Global Hint Mode MixinLaws ! - : typeclass_instances.

(** Values that are the same are equal: the attribute types that hold no
    float. *)
Class PyEqRefl (T : Type) `{PyEq T} : Prop :=
  py_eq_refl : ∀ x : T, py_eq x x = true.
Global Hint Mode PyEqRefl ! - : typeclass_instances.

(** A declared field on which instances that hold the same attribute are
    equal. *)
Definition field_sound {A} (f : field A) : Prop :=
  ∀ x y, f_same f x y → f_eq f x y = true.

(** Equal values are the same: the attribute types on which [==] is no
    coarser than sameness (strings, booleans, integers, enumeration
    members, and the options, lists and sets of such). *)
Class PyEqLeibniz (T : Type) `{PyEq T} : Prop :=
  py_eq_leibniz : ∀ x y : T, py_eq x y = true → x = y.
Global Hint Mode PyEqLeibniz ! - : typeclass_instances.

(** A declared field on which equal instances hold the same attribute. *)
Definition field_leibniz {A} (f : field A) : Prop :=
  ∀ x y, f_eq f x y = true → f_same f x y.

(** A measure on payload values, to reason on the values held by the
    lists and dicts of a value. *)
Fixpoint value_size (v : value) : nat :=
  match v with
  | VList l => S (foldr (λ a n, (value_size a + n)%nat) 0 l)
  | VDict d => S (map_fold (λ _ a n, (value_size a + n)%nat) 0 d)
  | _ => 1
  end.

(** * Media items *)

Module MediaItems.

(** The classes imported from [.media_item]; [media_from_dict] returns an
    instance of one of them. *)
Inductive MediaClass : Type :=
  | Album
  | Artist
  | Audiobook
  | BrowseFolder
  | Chapter
  | Episode
  | ItemMapping
  | Playlist
  | PlaylistTrack
  | Podcast
  | Radio
  | Track.

Section Dispatch.

(** The classes themselves live in [media_item.py], which is not part of
    the sources at hand: their instances, and what the mixin derives for
    them, are parameters of the development. *)
Context (obj : MediaClass → Type).
Context `{media_mixin : ∀ c : MediaClass, DataClassDictMixin (obj c)}.

(** A value of [MediaItemType | ItemMapping]: an instance together with
    its class. *)
Inductive media_object : Type :=
  | Instance (c : MediaClass) (o : obj c).

(** [return C.from_dict(media_item)] *)
Definition decode_as (c : MediaClass) (media_item : dict) : result media_object :=
  rmap (Instance c) (from_dict (A := obj c) media_item).

(** [media_item["media_type"] == tag], evaluated anew by every [if]. *)
Definition media_type_is (media_item : dict) (tag : string) : result bool :=
  let! v := getitem media_item "media_type" in Ok (eq_str v tag).

Definition media_from_dict (media_item : dict) : result media_object :=
  if negb (contains media_item "provider_mappings") then
    decode_as ItemMapping media_item
  else
  let! b := media_type_is media_item "artist" in
  if b then decode_as Artist media_item else
  let! b := media_type_is media_item "album" in
  if b then decode_as Album media_item else
  let! b := media_type_is media_item "track" in
  if b then decode_as Track media_item else
  let! b := media_type_is media_item "playlist" in
  if b then decode_as Playlist media_item else
  let! b := media_type_is media_item "radio" in
  if b then decode_as Radio media_item else
  let! b := media_type_is media_item "audiobook" in
  if b then decode_as Audiobook media_item else
  let! b := media_type_is media_item "chapter" in
  if b then decode_as Chapter media_item else
  let! b := media_type_is media_item "podcast" in
  if b then decode_as Podcast media_item else
  let! b := media_type_is media_item "episode" in
  if b then decode_as Episode media_item else
  Raise (InvalidDataError "Unknown media type").

(** [==] on media items is the [__eq__] that [media_item.py] defines for
    them, between instances of any two of the classes: one more parameter. *)
Context (media_eq : ∀ c1 c2 : MediaClass, obj c1 → obj c2 → bool).

(** An attribute of type [C | ItemMapping]. It is encoded by the [to_dict]
    of the instance it holds; decoding tries [C.from_dict] and, when that
    raises, [ItemMapping.from_dict]. *)
Definition item_codec (c : MediaClass) : Codec (obj c + obj ItemMapping) := {|
  pack u :=
    match u with
    | inl item => VDict (to_dict item)
    | inr ref => VDict (to_dict ref)
    end;
  unpack v :=
    match v with
    | VDict d =>
        match from_dict (A := obj c) d with
        | Ok item => Some (inl item)
        | Raise _ =>
            match from_dict (A := obj ItemMapping) d with
            | Ok ref => Some (inr ref)
            | Raise _ => None
            end
        end
    | _ => None
    end;
|}.

Definition item_py_eq (c : MediaClass) : PyEq (obj c + obj ItemMapping) :=
  λ u v,
    match u, v with
    | inl x, inl y => media_eq c c x y
    | inl x, inr r => media_eq c ItemMapping x r
    | inr r, inl y => media_eq ItemMapping c r y
    | inr r, inr s => media_eq ItemMapping ItemMapping r s
    end.

#[local] Existing Instance item_codec.
#[local] Existing Instance item_py_eq.

(** The attributes are declared as [Sequence[C | ItemMapping]]; they are
    lists here, which is what the default factory and the decoder build. *)
Record SearchResults : Type := mkSearchResults {
  artists : list (obj Artist + obj ItemMapping);
  albums : list (obj Album + obj ItemMapping);
  tracks : list (obj Track + obj ItemMapping);
  playlists : list (obj Playlist + obj ItemMapping);
  radio : list (obj Radio + obj ItemMapping);
  audiobooks : list (obj Audiobook + obj ItemMapping);
  podcasts : list (obj Podcast + obj ItemMapping);
}.

Definition SearchResults_fields : list (field SearchResults) :=
  [ fld "artists" artists;
    fld "albums" albums;
    fld "tracks" tracks;
    fld "playlists" playlists;
    fld "radio" radio;
    fld "audiobooks" audiobooks;
    fld "podcasts" podcasts ].

Definition SearchResults_from_dict (d : dict) : result SearchResults :=
  let! artists := defaulted d "artists" [] in
  let! albums := defaulted d "albums" [] in
  let! tracks := defaulted d "tracks" [] in
  let! playlists := defaulted d "playlists" [] in
  let! radio := defaulted d "radio" [] in
  let! audiobooks := defaulted d "audiobooks" [] in
  let! podcasts := defaulted d "podcasts" [] in
  Ok (mkSearchResults artists albums tracks playlists radio audiobooks podcasts).

Definition SearchResults_mixin : DataClassDictMixin SearchResults := {|
  fields := SearchResults_fields;
  from_dict := SearchResults_from_dict;
  post_serialize _ d := d;
|}.

(** An element of a category of class [c] is decoded from its payload to
    itself: the payload of a full item is decoded to the item by
    [c.from_dict]; the payload of a reference is rejected by [c.from_dict]
    and decoded to the reference by [ItemMapping.from_dict]. *)
Definition item_round_trips (c : MediaClass) (u : obj c + obj ItemMapping) : Prop :=
  match u with
  | inl item => from_dict (to_dict item) = Ok item
  | inr ref =>
      (∃ e, from_dict (A := obj c) (to_dict ref) = Raise e)
      ∧ from_dict (to_dict ref) = Ok ref
  end.

(** Every element that the search results hold is decoded from its payload
    to itself. *)
Definition elements_round_trip (results : SearchResults) : Prop :=
  Forall (item_round_trips Artist) (artists results)
  ∧ Forall (item_round_trips Album) (albums results)
  ∧ Forall (item_round_trips Track) (tracks results)
  ∧ Forall (item_round_trips Playlist) (playlists results)
  ∧ Forall (item_round_trips Radio) (radio results)
  ∧ Forall (item_round_trips Audiobook) (audiobooks results)
  ∧ Forall (item_round_trips Podcast) (podcasts results).

End Dispatch.

Arguments Instance {obj} c o.
Arguments media_from_dict obj {media_mixin} media_item.
Arguments mkSearchResults {obj}.
Arguments SearchResults_fields obj {media_mixin} media_eq.
Arguments SearchResults_from_dict obj {media_mixin} d.
Arguments SearchResults_mixin obj {media_mixin} media_eq.
Arguments item_round_trips obj {media_mixin} c u.
Arguments elements_round_trip obj {media_mixin} results.

(** The nine literals the dispatch compares [media_type] with. *)
Definition media_type_tags : list string :=
  ["artist"; "album"; "track"; "playlist"; "radio"; "audiobook"; "chapter";
   "podcast"; "episode"].

(** The class that each literal of the dispatch selects, in the order of
    the tests. *)
Definition dispatch_table : list (string * MediaClass) :=
  [("artist", Artist); ("album", Album); ("track", Track);
   ("playlist", Playlist); ("radio", Radio); ("audiobook", Audiobook);
   ("chapter", Chapter); ("podcast", Podcast); ("episode", Episode)].

Global Instance MediaClass_eq_dec : EqDecision MediaClass.
Proof. solve_decision. Defined.

(** A stand-in for the absent classes, to run the dispatch on concrete
    payloads: an instance of any class is the payload it was decoded from,
    and is encoded as that payload. *)
Definition raw_obj (c : MediaClass) : Type := dict.

Definition raw_mixin (c : MediaClass) : DataClassDictMixin (raw_obj c) := {|
  fields := [];
  from_dict d := Ok d;
  post_serialize self _ := self;
|}.

(** A catalogue small enough to run the decoders on: an item of any class
    is its name; the payload of a full item carries [provider_mappings], the
    payload of an [ItemMapping] does not, and the decoder of either kind
    requires what its payload carries. *)
Definition toy_obj (c : MediaClass) : Type := string.

Definition is_reference (c : MediaClass) : bool :=
  match c with
  | ItemMapping => true
  | _ => false
  end.

Definition toy_from_dict (c : MediaClass) (d : dict) : result (toy_obj c) :=
  let! name := required d "name" in
  if is_reference c then Ok name
  else let! mappings := required (T := list string) d "provider_mappings" in Ok name.

Definition toy_mixin (c : MediaClass) : DataClassDictMixin (toy_obj c) := {|
  fields := [fld "name" (λ name : toy_obj c, name : string)];
  from_dict := toy_from_dict c;
  post_serialize _ d :=
    if is_reference c then d else <["provider_mappings" := VList []]> d;
|}.

Definition toy_eq (c1 c2 : MediaClass) (x : toy_obj c1) (y : toy_obj c2) : bool :=
  py_eq (x : string) (y : string).

End MediaItems.

(** * The player model *)

(** ** Enumerations and constants *)

(** Modelled from the spec: [enums.py] is not among the sources.
    [PlayerType], [PlayerFeature], [PlayerState] and [MediaType] are string
    enumerations; a member is represented by the string it is encoded as,
    and only the members that [player.py] and the examples of the
    specification name are given a name here. *)
Record StrEnum (cls : string) : Type := Member { member_value : string }.
Arguments Member {cls}.
Arguments member_value {cls}.

Abbreviation PlayerType := (StrEnum "PlayerType").
Abbreviation PlayerFeature := (StrEnum "PlayerFeature").
Abbreviation PlayerState := (StrEnum "PlayerState").
Abbreviation MediaType := (StrEnum "MediaType").

Definition PlayerState_PLAYING : PlayerState := Member "playing".
Definition PlayerState_PAUSED : PlayerState := Member "paused".
Definition MediaType_UNKNOWN : MediaType := Member "unknown".

Global Instance StrEnum_eq_dec cls : EqDecision (StrEnum cls).
Proof. solve_decision. Defined.

Global Instance StrEnum_countable cls : Countable (StrEnum cls) :=
  inj_countable' member_value Member (λ e, match e with Member _ => eq_refl end).

(** Members are singletons: two members are equal when they are the same. *)
Global Instance StrEnum_py_eq cls : PyEq (StrEnum cls) := λ a b, bool_decide (a = b).

Global Instance StrEnum_codec cls : Codec (StrEnum cls) := {|
  pack e := VStr (member_value e);
  unpack v := match v with VStr s => Some (Member s) | _ => None end;
|}.

(** [constants.py] is not among the sources either: the value of
    [PLAYER_CONTROL_NATIVE] is a parameter. *)
Class Constants := { PLAYER_CONTROL_NATIVE : string }.

(** ** DeviceInfo *)

Module DeviceInfo.

Record t : Type := mk {
  model : string;
  manufacturer : string;
  software_version : option string;
  model_id : option string;
  manufacturer_id : option string;
  ip_address : option string;
  mac_address : option string;
}.

(** [DeviceInfo()] *)
Definition init : t := mk "Unknown model" "Unknown Manufacturer" None None None None None.

Definition fields : list (field t) :=
  [ fld "model" model;
    fld "manufacturer" manufacturer;
    fld "software_version" software_version;
    fld "model_id" model_id;
    fld "manufacturer_id" manufacturer_id;
    fld "ip_address" ip_address;
    fld "mac_address" mac_address ].

Definition from_dict (d : dict) : result t :=
  let! model := defaulted d "model" "Unknown model" in
  let! manufacturer := defaulted d "manufacturer" "Unknown Manufacturer" in
  let! software_version := defaulted d "software_version" None in
  let! model_id := defaulted d "model_id" None in
  let! manufacturer_id := defaulted d "manufacturer_id" None in
  let! ip_address := defaulted d "ip_address" None in
  let! mac_address := defaulted d "mac_address" None in
  Ok (mk model manufacturer software_version model_id manufacturer_id
         ip_address mac_address).

(** [__post_serialize__]: [d["address"] = d.get("ip_address") or ""] *)
Definition post_serialize (self : t) (d : dict) : dict :=
  <["address" := py_or (dict_get d "ip_address") (VStr "")]> d.

End DeviceInfo.

Global Instance DeviceInfo_mixin : DataClassDictMixin DeviceInfo.t := {|
  fields := DeviceInfo.fields;
  from_dict := DeviceInfo.from_dict;
  post_serialize := DeviceInfo.post_serialize;
|}.
Global Instance DeviceInfo_codec : Codec DeviceInfo.t := dataclass_codec.
Global Instance DeviceInfo_py_eq : PyEq DeviceInfo.t := dataclass_py_eq.

(** ** PlayerMedia *)

Module PlayerMedia.

Record t : Type := mk {
  uri : string;
  media_type : MediaType;
  title : option string;
  artist : option string;
  album : option string;
  image_url : option string;
  duration : option Z;
  queue_id : option string;
  queue_item_id : option string;
  custom_data : option dict;
}.

(** [PlayerMedia(uri)] *)
Definition init (uri : string) : t :=
  mk uri MediaType_UNKNOWN None None None None None None None None.

Definition fields : list (field t) :=
  [ fld "uri" uri;
    fld "media_type" media_type;
    fld "title" title;
    fld "artist" artist;
    fld "album" album;
    fld "image_url" image_url;
    fld "duration" duration;
    fld "queue_id" queue_id;
    fld "queue_item_id" queue_item_id;
    fld "custom_data" custom_data ].

Definition from_dict (d : dict) : result t :=
  let! uri := required d "uri" in
  let! media_type := defaulted d "media_type" MediaType_UNKNOWN in
  let! title := defaulted d "title" None in
  let! artist := defaulted d "artist" None in
  let! album := defaulted d "album" None in
  let! image_url := defaulted d "image_url" None in
  let! duration := defaulted d "duration" None in
  let! queue_id := defaulted d "queue_id" None in
  let! queue_item_id := defaulted d "queue_item_id" None in
  let! custom_data := defaulted d "custom_data" None in
  Ok (mk uri media_type title artist album image_url duration queue_id
         queue_item_id custom_data).

(** No float held in [custom_data] is a [nan] (no other attribute holds
    floats). *)
Definition nan_free (self : t) : bool :=
  match custom_data self with
  | Some data => value_nan_free (VDict data)
  | None => true
  end.

End PlayerMedia.

Global Instance PlayerMedia_mixin : DataClassDictMixin PlayerMedia.t := {|
  fields := PlayerMedia.fields;
  from_dict := PlayerMedia.from_dict;
  post_serialize _ d := d;
|}.
Global Instance PlayerMedia_codec : Codec PlayerMedia.t := dataclass_codec.
Global Instance PlayerMedia_py_eq : PyEq PlayerMedia.t := dataclass_py_eq.

(** ** PlayerSource *)

Module PlayerSource.

Record t : Type := mk {
  id : string;
  name : string;
  passive : bool;
}.

Definition fields : list (field t) :=
  [ fld "id" id; fld "name" name; fld "passive" passive ].

Definition from_dict (d : dict) : result t :=
  let! id := required d "id" in
  let! name := required d "name" in
  let! passive := defaulted d "passive" false in
  Ok (mk id name passive).

End PlayerSource.

Global Instance PlayerSource_mixin : DataClassDictMixin PlayerSource.t := {|
  fields := PlayerSource.fields;
  from_dict := PlayerSource.from_dict;
  post_serialize _ d := d;
|}.
Global Instance PlayerSource_codec : Codec PlayerSource.t := dataclass_codec.
Global Instance PlayerSource_py_eq : PyEq PlayerSource.t := dataclass_py_eq.

(** ** Reading the wall clock *)

(** A computation that may call [time.time()]: it is done, or it reads the
    clock and goes on with the time it was given. *)
Inductive clock (A : Type) : Type :=
  | Pure (a : A)
  | TimeTime (k : float → clock A).
Arguments Pure {A} a.
Arguments TimeTime {A} k.

(** Running a computation when the clock shows [now]. *)
Fixpoint run_at {A} (now : float) (c : clock A) : A :=
  match c with
  | Pure a => a
  | TimeTime k => run_at now (k now)
  end.

(** ** Player *)

Module Player.

(** [UniqueList[T]] (of [unique_list.py], not among the sources) is a list
    that holds no element twice; an attribute of that type is a list here.
    A [set[T]] is a finite set. *)
Record t : Type := mk {
  player_id : string;
  provider : string;
  type : PlayerType;
  name : string;
  available : bool;
  device_info : DeviceInfo.t;
  supported_features : gset PlayerFeature;
  state : option PlayerState;
  elapsed_time : option float;
  elapsed_time_last_updated : option float;
  powered : option bool;
  volume_level : option Z;
  volume_muted : option bool;
  group_childs : list string;
  can_group_with : gset string;
  synced_to : option string;
  active_source : option string;
  source_list : list PlayerSource.t;
  active_group : option string;
  current_media : option PlayerMedia.t;
  enabled_by_default : bool;
  needs_poll : bool;
  poll_interval : Z;
  enabled : bool;
  hidden : bool;
  icon : string;
  group_volume : Z;
  display_name : string;
  extra_data : dict;
  announcement_in_progress : bool;
  power_control : string;
  volume_control : string;
  mute_control : string;
  previous_volume_level : option Z;
  last_poll : float;
}.

Definition fields : list (field t) :=
  [ fld "player_id" player_id;
    fld "provider" provider;
    fld "type" type;
    fld "name" name;
    fld "available" available;
    fld "device_info" device_info;
    fld "supported_features" supported_features;
    fld "state" state;
    fld "elapsed_time" elapsed_time;
    fld "elapsed_time_last_updated" elapsed_time_last_updated;
    fld "powered" powered;
    fld "volume_level" volume_level;
    fld "volume_muted" volume_muted;
    fld "group_childs" group_childs;
    fld "can_group_with" can_group_with;
    fld "synced_to" synced_to;
    fld "active_source" active_source;
    fld "source_list" source_list;
    fld "active_group" active_group;
    fld "current_media" current_media;
    fld "enabled_by_default" enabled_by_default;
    fld "needs_poll" needs_poll;
    fld "poll_interval" poll_interval;
    fld "enabled" enabled;
    fld "hidden" hidden;
    fld "icon" icon;
    fld "group_volume" group_volume;
    fld "display_name" display_name;
    fld "extra_data" extra_data;
    fld "announcement_in_progress" announcement_in_progress;
    fld "power_control" power_control;
    fld "volume_control" volume_control;
    fld "mute_control" mute_control;
    fld_internal "previous_volume_level" previous_volume_level;
    fld_internal "last_poll" last_poll ].

(** The last two fields are declared with [deserialize=pass_through]: an
    entry of the payload under their name is taken as it is. *)
Definition from_dict `{Constants} (d : dict) : result t :=
  let! player_id := required d "player_id" in
  let! provider := required d "provider" in
  let! type := required d "type" in
  let! name := required d "name" in
  let! available := required d "available" in
  let! device_info := required d "device_info" in
  let! supported_features := defaulted d "supported_features" ∅ in
  let! state := defaulted d "state" None in
  let! elapsed_time := defaulted d "elapsed_time" None in
  let! elapsed_time_last_updated := defaulted d "elapsed_time_last_updated" None in
  let! powered := defaulted d "powered" None in
  let! volume_level := defaulted d "volume_level" None in
  let! volume_muted := defaulted d "volume_muted" None in
  let! group_childs := defaulted d "group_childs" [] in
  let! can_group_with := defaulted d "can_group_with" ∅ in
  let! synced_to := defaulted d "synced_to" None in
  let! active_source := defaulted d "active_source" None in
  let! source_list := defaulted d "source_list" [] in
  let! active_group := defaulted d "active_group" None in
  let! current_media := defaulted d "current_media" None in
  let! enabled_by_default := defaulted d "enabled_by_default" true in
  let! needs_poll := defaulted d "needs_poll" false in
  let! poll_interval := defaulted d "poll_interval" 30%Z in
  let! enabled := defaulted d "enabled" true in
  let! hidden := defaulted d "hidden" false in
  let! icon := defaulted d "icon" "mdi-speaker" in
  let! group_volume := defaulted d "group_volume" 100%Z in
  let! display_name := defaulted d "display_name" "" in
  let! extra_data := defaulted d "extra_data" ∅ in
  let! announcement_in_progress := defaulted d "announcement_in_progress" false in
  let! power_control := defaulted d "power_control" PLAYER_CONTROL_NATIVE in
  let! volume_control := defaulted d "volume_control" PLAYER_CONTROL_NATIVE in
  let! mute_control := defaulted d "mute_control" PLAYER_CONTROL_NATIVE in
  let! previous_volume_level := defaulted d "previous_volume_level" None in
  let! last_poll := defaulted d "last_poll" 0%float in
  Ok (mk player_id provider type name available device_info
         supported_features state elapsed_time elapsed_time_last_updated
         powered volume_level volume_muted group_childs can_group_with
         synced_to active_source source_list active_group current_media
         enabled_by_default needs_poll poll_interval enabled hidden icon
         group_volume display_name extra_data announcement_in_progress
         power_control volume_control mute_control previous_volume_level
         last_poll).

(** [self.current_media = m] *)
Definition set_current_media (m : option PlayerMedia.t) (self : t) : t :=
  mk (player_id self) (provider self) (type self) (name self)
     (available self) (device_info self) (supported_features self)
     (state self) (elapsed_time self) (elapsed_time_last_updated self)
     (powered self) (volume_level self) (volume_muted self)
     (group_childs self) (can_group_with self) (synced_to self)
     (active_source self) (source_list self) (active_group self)
     m
     (enabled_by_default self) (needs_poll self) (poll_interval self)
     (enabled self) (hidden self) (icon self) (group_volume self)
     (display_name self) (extra_data self) (announcement_in_progress self)
     (power_control self) (volume_control self) (mute_control self)
     (previous_volume_level self) (last_poll self).

(** The two server-side attributes set to given values, the rest kept. *)
Definition set_internal (v : option Z) (poll : float) (self : t) : t :=
  mk (player_id self) (provider self) (type self) (name self)
     (available self) (device_info self) (supported_features self)
     (state self) (elapsed_time self) (elapsed_time_last_updated self)
     (powered self) (volume_level self) (volume_muted self)
     (group_childs self) (can_group_with self) (synced_to self)
     (active_source self) (source_list self) (active_group self)
     (current_media self)
     (enabled_by_default self) (needs_poll self) (poll_interval self)
     (enabled self) (hidden self) (icon self) (group_volume self)
     (display_name self) (extra_data self) (announcement_in_progress self)
     (power_control self) (volume_control self) (mute_control self)
     v poll.

(** The property [corrected_elapsed_time]. *)
Definition corrected_elapsed_time (self : t) : clock (option float) :=
  match elapsed_time self, elapsed_time_last_updated self with
  | Some elapsed, Some last_updated =>
      if py_eq (state self) (Some PlayerState_PLAYING) then
        TimeTime (λ now, Pure (Some (elapsed + (now - last_updated))%float))
      else Pure (Some elapsed)
  | _, _ => Pure None
  end.

(** The property [current_item_id]; an instance of [PlayerMedia] is always
    true in a test, [None] never. *)
Definition current_item_id (self : t) : option string :=
  match current_media self with
  | Some media => Some (PlayerMedia.uri media)
  | None => None
  end.

(** The setter of [current_item_id]. *)
Definition set_current_item_id (uri : string) (self : t) : t :=
  set_current_media (Some (PlayerMedia.init uri)) self.

(** No compared attribute holds a [nan]: neither [elapsed_time] nor
    [elapsed_time_last_updated], nor a value of [extra_data] or of the
    [custom_data] of [current_media]. *)
Definition nan_free (self : t) : bool :=
  float_nan_free (elapsed_time self)
  && float_nan_free (elapsed_time_last_updated self)
  && match current_media self with
     | Some media => PlayerMedia.nan_free media
     | None => true
     end
  && value_nan_free (VDict (extra_data self)).

End Player.

Global Instance Player_mixin `{Constants} : DataClassDictMixin Player.t := {|
  fields := Player.fields;
  from_dict := Player.from_dict;
  post_serialize _ d := d;
|}.
Global Instance Player_py_eq : PyEq Player.t := dataclass_eq Player.fields.

(** * Example payloads and instances *)

(** A payload tagged as a track that has no [provider_mappings]. *)
Definition track_reference : dict :=
  <["media_type" := VStr "track"]> (<["item_id" := VStr "42"]> ∅).

(** Full items: one with a tag the dispatch does not know, one tagged
    [playlist_track], one without any tag. *)
Definition bogus_item : dict :=
  <["media_type" := VStr "bogus"]> (<["provider_mappings" := VList []]> ∅).

Definition playlist_track_item : dict :=
  <["media_type" := VStr "playlist_track"]> (<["provider_mappings" := VList []]> ∅).

Definition track_item : dict :=
  <["media_type" := VStr "track"]> (<["provider_mappings" := VList []]> ∅).

Definition untagged_item : dict :=
  <["item_id" := VStr "42"]> (<["provider_mappings" := VList []]> ∅).

(** A player with the given state, elapsed time, time stamp and media. *)
Definition example_player (state : option PlayerState)
    (elapsed_time elapsed_time_last_updated : option float)
    (current_media : option PlayerMedia.t) : Player.t :=
  Player.mk "player_1" "provider_1" (Member "player") "Kitchen" true
    DeviceInfo.init ∅ state elapsed_time elapsed_time_last_updated
    None (Some 40%Z) None ["player_1"; "player_2"] {["player_2"]} None None
    [PlayerSource.mk "line_in" "Line in" false] None current_media
    true false 30 true false "mdi-speaker" 100 "Kitchen" ∅ false
    "native" "native" "native" (Some 25%Z) 1700000001.5.

(** A playing player whose [elapsed_time] is a [nan]. *)
Definition nan_player : Player.t :=
  example_player (Some PlayerState_PLAYING) (Some nan) (Some 1700000000%float) None.

(** [DeviceInfo(ip_address="10.0.0.5")] *)
Definition example_device : DeviceInfo.t :=
  DeviceInfo.mk "Unknown model" "Unknown Manufacturer" None None None
    (Some "10.0.0.5") None.

Definition example_media : PlayerMedia.t :=
  PlayerMedia.mk "uri:1" MediaType_UNKNOWN (Some "X") None None None
    (Some 180%Z) None None None.

(** Search results that hold a full artist and a reference to one. *)
Definition example_results : MediaItems.SearchResults MediaItems.toy_obj :=
  MediaItems.mkSearchResults [inl "Queen"; inr "Muse"] [] [inr "Innuendo"] [] [] [] [].

Definition example_constants : Constants := {| PLAYER_CONTROL_NATIVE := "native" |}.

(** * Properties of the media item dispatch *)

Section DispatchProperties.

Import MediaItems.

Context (obj : MediaClass → Type).
Context `{media_mixin : ∀ c : MediaClass, DataClassDictMixin (obj c)}.

Implicit Types (media_item : dict) (v : value) (tag : string).

Lemma contains_false media_item k :
  media_item !! k = None → contains media_item k = false.
Proof. unfold contains. by intros ->. Qed.

Lemma contains_true media_item k :
  is_Some (media_item !! k) → contains media_item k = true.
Proof. unfold contains. by intros [v ->]. Qed.

Lemma media_type_is_lookup media_item v tag :
  media_item !! "media_type" = Some v →
  media_type_is media_item tag = Ok (eq_str v tag).
Proof. unfold media_type_is, getitem. by intros ->. Qed.

Lemma media_type_is_missing media_item tag :
  media_item !! "media_type" = None →
  media_type_is media_item tag = Raise (KeyError "media_type").
Proof. unfold media_type_is, getitem. by intros ->. Qed.

Lemma eq_str_ne v tag : v ≠ VStr tag → eq_str v tag = false.
Proof.
  destruct v as [| | | |s| |]; simpl; try done.
  intros Hne. apply bool_decide_eq_false. congruence.
Qed.

(** On a full item whose tag is none of the nine literals, every test of
    the chain is false and the final [raise] is reached. *)
Lemma media_from_dict_no_tag media_item v :
  is_Some (media_item !! "provider_mappings") →
  media_item !! "media_type" = Some v →
  Forall (λ tag, eq_str v tag = false) media_type_tags →
  media_from_dict obj media_item
  = Raise (InvalidDataError "Unknown media type").
Proof.
  intros Hpm Hmt Htags. unfold media_from_dict.
  rewrite (contains_true _ _ Hpm). simpl.
  unfold media_type_tags in Htags.
  repeat (apply Forall_cons in Htags as [Htag Htags];
          rewrite (media_type_is_lookup _ _ _ Hmt); simpl; rewrite Htag; clear Htag).
  done.
Qed.

(** C1: a mapping without the key [provider_mappings] is decoded by
    [ItemMapping.from_dict], whatever its [media_type] entry is (and
    whether it has one): the outcome of [media_from_dict] is the outcome
    of that decoder, so every value returned is an [ItemMapping]. *)
Theorem media_from_dict_reference media_item :
  media_item !! "provider_mappings" = None →
  media_from_dict obj media_item
  = rmap (Instance ItemMapping) (from_dict (A := obj ItemMapping) media_item)
  ∧ ∀ r, media_from_dict obj media_item = Ok r →
      ∃ im : obj ItemMapping,
        from_dict (A := obj ItemMapping) media_item = Ok im ∧ r = Instance ItemMapping im.
Proof.
  intros Hpm.
  assert (media_from_dict obj media_item
          = rmap (Instance ItemMapping) (from_dict (A := obj ItemMapping) media_item)) as Heq.
  { unfold media_from_dict. by rewrite (contains_false _ _ Hpm). }
  split; [done|]. intros r. rewrite Heq. unfold rmap, bind.
  destruct (from_dict (A := obj ItemMapping) media_item) as [im|e]; [|done].
  intros [= <-]. by exists im.
Qed.

(** C2: a mapping that has the key [provider_mappings] and whose
    [media_type] entry is none of the nine known strings is rejected with
    [InvalidDataError("Unknown media type")]; nothing is returned. *)
Theorem media_from_dict_unknown_media_type media_item v :
  is_Some (media_item !! "provider_mappings") →
  media_item !! "media_type" = Some v →
  Forall (λ tag, v ≠ VStr tag) media_type_tags →
  media_from_dict obj media_item
  = Raise (InvalidDataError "Unknown media type").
Proof.
  intros Hpm Hmt Htags. apply (media_from_dict_no_tag _ v); [done..|].
  eapply Forall_impl; [exact Htags|]. intros tag. apply eq_str_ne.
Qed.

(** C8 (as amended): a mapping that has the key [provider_mappings] and
    whose [media_type] is ["playlist_track"] is rejected with the unknown
    media type error: the dispatch knows nine tags and this is none of
    them. *)
Theorem media_from_dict_playlist_track_rejected media_item :
  is_Some (media_item !! "provider_mappings") →
  media_item !! "media_type" = Some (VStr "playlist_track") →
  media_from_dict obj media_item
  = Raise (InvalidDataError "Unknown media type").
Proof.
  intros Hpm Hmt. apply (media_from_dict_no_tag _ (VStr "playlist_track")); [done..|].
  repeat constructor.
Qed.

(** C9: a mapping that has the key [provider_mappings] but no key
    [media_type] fails in the first subscript with [KeyError], which is
    not the [InvalidDataError] of the unknown media type case. *)
Theorem media_from_dict_missing_media_type media_item :
  is_Some (media_item !! "provider_mappings") →
  media_item !! "media_type" = None →
  media_from_dict obj media_item = Raise (KeyError "media_type")
  ∧ ∀ msg, media_from_dict obj media_item ≠ Raise (InvalidDataError msg).
Proof.
  intros Hpm Hmt.
  assert (media_from_dict obj media_item
          = Raise (KeyError "media_type")) as Heq.
  { unfold media_from_dict. rewrite (contains_true _ _ Hpm). simpl.
    by rewrite (media_type_is_missing _ _ Hmt). }
  split; [done|]. intros msg. by rewrite Heq.
Qed.

(** X3: whatever is returned is an instance of [ItemMapping] or of one of
    the nine dispatched classes; [PlaylistTrack] and [BrowseFolder] are
    never produced. *)
Lemma media_from_dict_classes media_item c (o : obj c) :
  media_from_dict obj media_item = Ok (Instance c o) →
  c ≠ PlaylistTrack ∧ c ≠ BrowseFolder.
Proof.
  unfold media_from_dict, decode_as, rmap, media_type_is, getitem, bind.
  repeat match goal with
    | |- context [if ?b then _ else _] => destruct b
    | |- context [match ?m !! ?k with _ => _ end] => destruct (m !! k)
    | |- context [match from_dict ?d with _ => _ end] => destruct (from_dict d)
    end; try done; intros [= <- _]; done.
Qed.

End DispatchProperties.

(** ** The dispatch on the example payloads *)

Lemma media_from_dict_reference_witness :
  MediaItems.media_from_dict MediaItems.raw_obj (media_mixin := MediaItems.raw_mixin)
    track_reference
  = Ok (MediaItems.Instance MediaItems.ItemMapping track_reference).
Proof.
  exact (proj1 (@media_from_dict_reference MediaItems.raw_obj MediaItems.raw_mixin
                  track_reference eq_refl)).
Defined.

Lemma media_from_dict_unknown_media_type_witness :
  MediaItems.media_from_dict MediaItems.raw_obj (media_mixin := MediaItems.raw_mixin)
    bogus_item
  = Raise (InvalidDataError "Unknown media type").
Proof.
  apply (@media_from_dict_unknown_media_type MediaItems.raw_obj MediaItems.raw_mixin
           bogus_item (VStr "bogus")).
  - exists (VList []). reflexivity.
  - reflexivity.
  - repeat constructor; discriminate.
Defined.

Lemma media_from_dict_playlist_track_rejected_witness :
  MediaItems.media_from_dict MediaItems.raw_obj (media_mixin := MediaItems.raw_mixin)
    playlist_track_item
  = Raise (InvalidDataError "Unknown media type").
Proof.
  apply (@media_from_dict_playlist_track_rejected MediaItems.raw_obj
           MediaItems.raw_mixin playlist_track_item).
  - exists (VList []). reflexivity.
  - reflexivity.
Defined.

(** C8, as stated, fails: with decoders that accept every payload, a full
    item tagged [playlist_track] is not decoded as a [PlaylistTrack], it is
    rejected. *)
Lemma media_from_dict_playlist_track_counterexample :
  is_Some (playlist_track_item !! "provider_mappings")
  ∧ playlist_track_item !! "media_type" = Some (VStr "playlist_track")
  ∧ MediaItems.media_from_dict MediaItems.raw_obj (media_mixin := MediaItems.raw_mixin)
      playlist_track_item
    = Raise (InvalidDataError "Unknown media type")
  ∧ ¬ ∃ o : MediaItems.raw_obj MediaItems.PlaylistTrack,
        MediaItems.media_from_dict MediaItems.raw_obj
          (media_mixin := MediaItems.raw_mixin) playlist_track_item
        = Ok (MediaItems.Instance MediaItems.PlaylistTrack o).
Proof.
  assert (MediaItems.media_from_dict MediaItems.raw_obj
            (media_mixin := MediaItems.raw_mixin) playlist_track_item
          = Raise (InvalidDataError "Unknown media type")) as Heq
    by (vm_compute; reflexivity).
  split; [by exists (VList [])|]. split; [reflexivity|]. split; [exact Heq|].
  intros [o Ho]. rewrite Heq in Ho. discriminate.
Qed.

(** A full item tagged [track] goes to [Track.from_dict]. *)
Example media_from_dict_track :
  MediaItems.media_from_dict MediaItems.raw_obj (media_mixin := MediaItems.raw_mixin)
    (<["provider_mappings" := VList []]> track_reference)
  = Ok (MediaItems.Instance MediaItems.Track
          (<["provider_mappings" := VList []]> track_reference)).
Proof. vm_compute. reflexivity. Qed.

Lemma media_from_dict_missing_media_type_witness :
  MediaItems.media_from_dict MediaItems.raw_obj (media_mixin := MediaItems.raw_mixin)
    untagged_item
  = Raise (KeyError "media_type").
Proof.
  apply (@media_from_dict_missing_media_type MediaItems.raw_obj MediaItems.raw_mixin
           untagged_item).
  - exists (VList []). reflexivity.
  - reflexivity.
Defined.

(** * Properties of the player model *)

(** ** The derived properties *)

(** C4: [corrected_elapsed_time] yields [None] when [elapsed_time] or
    [elapsed_time_last_updated] is unset; when both are set and the state
    is [PLAYING] it reads the wall clock once and returns
    [elapsed_time + (now - elapsed_time_last_updated)]; in every other
    state it returns [elapsed_time] unchanged, without reading the clock. *)
Theorem corrected_elapsed_time_cases (self : Player.t) :
  (Player.elapsed_time self = None ∨ Player.elapsed_time_last_updated self = None →
   Player.corrected_elapsed_time self = Pure None)
  ∧ ∀ elapsed last_updated : float,
      Player.elapsed_time self = Some elapsed →
      Player.elapsed_time_last_updated self = Some last_updated →
      (Player.state self = Some PlayerState_PLAYING →
       Player.corrected_elapsed_time self
       = TimeTime (λ now, Pure (Some (elapsed + (now - last_updated))%float))
       ∧ ∀ now : float,
           run_at now (Player.corrected_elapsed_time self)
           = Some (elapsed + (now - last_updated))%float)
      ∧ (Player.state self ≠ Some PlayerState_PLAYING →
         Player.corrected_elapsed_time self = Pure (Some elapsed)).
Proof.
  unfold Player.corrected_elapsed_time. split.
  - intros [-> | ->]; [done|]. by destruct (Player.elapsed_time self).
  - intros elapsed last_updated -> ->. split.
    + intros ->. by split.
    + intros Hstate.
      destruct (Player.state self) as [s|]; [|done].
      unfold py_eq, option_py_eq, py_eq, StrEnum_py_eq.
      case_bool_decide; [|done]. congruence.
Qed.

(** C7: the setter of [current_item_id] replaces [current_media] by
    [PlayerMedia(uri)], whatever it held: afterwards the uri is the given
    one and every optional attribute of the media is unset. *)
Theorem set_current_item_id_replaces_media (self : Player.t) (uri : string) :
  ∃ media : PlayerMedia.t,
    Player.current_media (Player.set_current_item_id uri self) = Some media
    ∧ media = PlayerMedia.init uri
    ∧ PlayerMedia.uri media = uri
    ∧ PlayerMedia.title media = None
    ∧ PlayerMedia.artist media = None
    ∧ PlayerMedia.album media = None
    ∧ PlayerMedia.image_url media = None
    ∧ PlayerMedia.duration media = None
    ∧ PlayerMedia.queue_id media = None
    ∧ PlayerMedia.queue_item_id media = None
    ∧ PlayerMedia.custom_data media = None
    ∧ Player.current_item_id (Player.set_current_item_id uri self) = Some uri.
Proof. exists (PlayerMedia.init uri). repeat split. Qed.

(** The setter touches no other attribute. *)
Lemma set_current_item_id_frame (self : Player.t) (uri : string) :
  Player.set_current_media (Player.current_media self)
    (Player.set_current_item_id uri self) = self.
Proof. by destruct self. Qed.

Lemma corrected_elapsed_time_cases_witness :
  run_at 1700000005
    (Player.corrected_elapsed_time
       (example_player (Some PlayerState_PLAYING) (Some 10%float)
          (Some 1700000000%float) None))
  = Some 15%float
  ∧ Player.corrected_elapsed_time
      (example_player (Some PlayerState_PAUSED) (Some 10%float)
         (Some 1700000000%float) None)
    = Pure (Some 10%float)
  ∧ Player.corrected_elapsed_time
      (example_player (Some PlayerState_PLAYING) None (Some 1700000000%float) None)
    = Pure None.
Proof.
  split; [|split].
  - exact (proj2 (proj1 (proj2 (corrected_elapsed_time_cases
             (example_player (Some PlayerState_PLAYING) (Some 10%float)
                (Some 1700000000%float) None))
             10%float 1700000000%float eq_refl eq_refl) eq_refl)
             1700000005%float).
  - apply (proj2 (proj2 (corrected_elapsed_time_cases
             (example_player (Some PlayerState_PAUSED) (Some 10%float)
                (Some 1700000000%float) None))
             10%float 1700000000%float eq_refl eq_refl)).
    discriminate.
  - apply (proj1 (corrected_elapsed_time_cases
             (example_player (Some PlayerState_PLAYING) None
                (Some 1700000000%float) None))).
    left. reflexivity.
Defined.

(** The example of the specification for the setter: a title held before
    the assignment is gone after it. *)
Example set_current_item_id_drops_title :
  let self := example_player None None None (Some example_media) in
  PlayerMedia.title <$> Player.current_media self = Some (Some "X")
  ∧ PlayerMedia.title <$> Player.current_media (Player.set_current_item_id "uri:123" self)
    = Some None.
Proof. split; reflexivity. Qed.

(** ** Encoding *)

Lemma to_dict_fields_lookup {A} (fs : list (field A)) (self : A) (k : string) :
  to_dict_fields fs self !! k = (λ f, f_pack f self) <$> field_named fs k.
Proof.
  unfold field_named. induction fs as [|f fs IH]; simpl; [done|].
  rewrite filter_cons. destruct (f_omit f) eqn:Homit.
  - rewrite decide_False by (intros [? _]; done). done.
  - destruct (decide (f_name f = k)) as [Hk|Hk].
    + rewrite decide_True by done. simpl. rewrite <- Hk. by rewrite lookup_insert_eq.
    + rewrite decide_False by (intros [_ ?]; done). by rewrite lookup_insert_ne.
Qed.

Lemma to_dict_fields_dom {A} (fs : list (field A)) (self : A) :
  dom (to_dict_fields fs self) = list_to_set (serialized_names fs).
Proof.
  unfold serialized_names. induction fs as [|f fs IH]; simpl.
  - by rewrite dom_empty_L.
  - rewrite filter_cons. destruct (f_omit f) eqn:Homit.
    + by rewrite decide_False by done.
    + rewrite decide_True by done. simpl. by rewrite dom_insert_L, IH.
Qed.

(** Solves [to_dict_fields fs self !! k = _] for a given table and name. *)
Ltac lookup_field :=
  rewrite to_dict_fields_lookup;
  match goal with
  | |- context [field_named ?fs ?k] =>
      let r := eval hnf in (field_named fs k) in
      change (field_named fs k) with r
  end;
  reflexivity.

Lemma Player_to_dict_unfold `{Constants} (self : Player.t) :
  to_dict self = to_dict_fields Player.fields self.
Proof. reflexivity. Qed.

Lemma PlayerMedia_to_dict_unfold (self : PlayerMedia.t) :
  to_dict self = to_dict_fields PlayerMedia.fields self.
Proof. reflexivity. Qed.

Lemma PlayerSource_to_dict_unfold (self : PlayerSource.t) :
  to_dict self = to_dict_fields PlayerSource.fields self.
Proof. reflexivity. Qed.

Lemma DeviceInfo_to_dict_unfold (self : DeviceInfo.t) :
  to_dict self
  = <["address" := py_or (dict_get (to_dict_fields DeviceInfo.fields self) "ip_address")
                         (VStr "")]>
      (to_dict_fields DeviceInfo.fields self).
Proof. reflexivity. Qed.

(** C6: the payload of a [Player] has neither the key
    [previous_volume_level] nor the key [last_poll], and does not depend on
    the values these two attributes hold. *)
Theorem Player_to_dict_omits_internal `{Constants} (self : Player.t) :
  to_dict self !! "previous_volume_level" = None
  ∧ to_dict self !! "last_poll" = None
  ∧ ∀ (level : option Z) (poll : float),
      to_dict (Player.set_internal level poll self) = to_dict self.
Proof.
  split; [|split].
  - rewrite Player_to_dict_unfold. lookup_field.
  - rewrite Player_to_dict_unfold. lookup_field.
  - intros level poll. rewrite !Player_to_dict_unfold. by destruct self.
Qed.

(** X16: the keys of the payload of a [Player] are the names of the
    declared fields other than the two omitted ones. *)
Lemma Player_to_dict_dom `{Constants} (self : Player.t) :
  dom (to_dict self) = list_to_set (serialized_names Player.fields)
  ∧ ("previous_volume_level" ∉ serialized_names Player.fields)
  ∧ ("last_poll" ∉ serialized_names Player.fields).
Proof.
  split; [rewrite Player_to_dict_unfold; apply to_dict_fields_dom|].
  split; apply (bool_decide_unpack _); vm_compute; exact I.
Qed.

Lemma py_or_str (o : option string) :
  py_or (pack o) (VStr "") = VStr (default "" o).
Proof.
  destruct o as [s|]; [|done]. unfold py_or. simpl.
  case_bool_decide; by subst.
Qed.

Lemma DeviceInfo_to_dict_lookup (self : DeviceInfo.t) (k : string) :
  k ≠ "address" →
  to_dict self !! k = to_dict_fields DeviceInfo.fields self !! k.
Proof.
  intros Hk. rewrite DeviceInfo_to_dict_unfold. by rewrite lookup_insert_ne.
Qed.

(** C5: the payload of a [DeviceInfo] has the key [address], with the
    encoded [ip_address] when there is one and the empty string otherwise,
    next to the key [ip_address] itself; [PlayerMedia], [PlayerSource],
    [Player] and [SearchResults] define no hook: their payload is the one
    built from their fields, and has no key [address]. *)
Theorem DeviceInfo_to_dict_address (self : DeviceInfo.t) :
  (∀ ip : string,
     DeviceInfo.ip_address self = Some ip →
     to_dict self !! "address" = Some (VStr ip)
     ∧ to_dict self !! "ip_address" = Some (VStr ip))
  ∧ (DeviceInfo.ip_address self = None →
     to_dict self !! "address" = Some (VStr "")
     ∧ to_dict self !! "ip_address" = Some VNone)
  ∧ (∀ media : PlayerMedia.t,
       to_dict media = to_dict_fields PlayerMedia.fields media
       ∧ to_dict media !! "address" = None)
  ∧ (∀ source : PlayerSource.t,
       to_dict source = to_dict_fields PlayerSource.fields source
       ∧ to_dict source !! "address" = None)
  ∧ (∀ (C : Constants) (player : Player.t),
       to_dict player = to_dict_fields Player.fields player
       ∧ to_dict player !! "address" = None)
  ∧ (∀ (obj : MediaItems.MediaClass → Type)
       (media_mixin : ∀ c, DataClassDictMixin (obj c))
       (media_eq : ∀ c1 c2, obj c1 → obj c2 → bool)
       (results : MediaItems.SearchResults obj),
       to_dict (H := MediaItems.SearchResults_mixin obj media_eq) results
       = to_dict_fields (MediaItems.SearchResults_fields obj media_eq) results
       ∧ to_dict (H := MediaItems.SearchResults_mixin obj media_eq) results
           !! "address" = None).
Proof.
  assert (to_dict_fields DeviceInfo.fields self !! "ip_address"
          = Some (pack (DeviceInfo.ip_address self))) as Hfield by lookup_field.
  assert (to_dict self !! "address"
          = Some (VStr (default "" (DeviceInfo.ip_address self)))) as Haddr.
  { rewrite DeviceInfo_to_dict_unfold, lookup_insert_eq. unfold dict_get.
    rewrite Hfield. f_equal. apply py_or_str. }
  assert (to_dict self !! "ip_address" = Some (pack (DeviceInfo.ip_address self)))
    as Hip by (by rewrite DeviceInfo_to_dict_lookup).
  split; [|split; [|split; [|split; [|split]]]].
  - intros ip Hset. rewrite Haddr, Hip, Hset. done.
  - intros Hunset. rewrite Haddr, Hip, Hunset. done.
  - intros media. split; [done|]. rewrite PlayerMedia_to_dict_unfold. lookup_field.
  - intros source. split; [done|]. rewrite PlayerSource_to_dict_unfold. lookup_field.
  - intros C player. split; [done|]. rewrite Player_to_dict_unfold. lookup_field.
  - intros obj media_mixin media_eq results. split; [done|].
    change (to_dict_fields (MediaItems.SearchResults_fields obj media_eq) results
              !! "address" = None).
    lookup_field.
Qed.

Lemma DeviceInfo_to_dict_address_witness :
  to_dict example_device !! "address" = Some (VStr "10.0.0.5")
  ∧ to_dict example_device !! "ip_address" = Some (VStr "10.0.0.5")
  ∧ to_dict DeviceInfo.init !! "address" = Some (VStr "")
  ∧ to_dict DeviceInfo.init !! "ip_address" = Some VNone.
Proof.
  destruct (proj1 (DeviceInfo_to_dict_address example_device) "10.0.0.5" eq_refl)
    as [Haddr Hip].
  destruct (proj1 (proj2 (DeviceInfo_to_dict_address DeviceInfo.init)) eq_refl)
    as [Haddr' Hip'].
  exact (conj Haddr (conj Hip (conj Haddr' Hip'))).
Defined.

(** ** Decoding what was encoded *)

Global Instance str_codec_laws : CodecLaws string.
Proof. by intros x. Qed.
Global Instance bool_codec_laws : CodecLaws bool.
Proof. by intros x. Qed.
Global Instance int_codec_laws : CodecLaws Z.
Proof. by intros x. Qed.
Global Instance float_codec_laws : CodecLaws float.
Proof. by intros x. Qed.
Global Instance dict_codec_laws : CodecLaws dict.
Proof. by intros x. Qed.
Global Instance StrEnum_codec_laws cls : CodecLaws (StrEnum cls).
Proof. by intros [s]. Qed.

Global Instance str_not_none : PackNotNone string.
Proof. by intros x. Qed.
Global Instance bool_not_none : PackNotNone bool.
Proof. by intros x. Qed.
Global Instance int_not_none : PackNotNone Z.
Proof. by intros x. Qed.
Global Instance float_not_none : PackNotNone float.
Proof. by intros x. Qed.
Global Instance dict_not_none : PackNotNone dict.
Proof. by intros x. Qed.
Global Instance StrEnum_not_none cls : PackNotNone (StrEnum cls).
Proof. by intros x. Qed.
Global Instance dataclass_not_none {A} `{DataClassDictMixin A} :
  PackNotNone (H := dataclass_codec) A.
Proof. by intros x. Qed.

Global Instance option_codec_laws {T} `{CodecLaws T, !PackNotNone T} :
  CodecLaws (option T).
Proof.
  intros [x|]; [|done]. simpl.
  pose proof (pack_not_none x) as Hne. rewrite unpack_pack.
  by destruct (pack x).
Qed.

Lemma mapM_unpack_pack {T} `{CodecLaws T} (l : list T) :
  mapM unpack (pack <$> l) = Some l.
Proof.
  apply mapM_Some. induction l as [|x l IH]; simpl; constructor; [|done].
  apply unpack_pack.
Qed.

Global Instance list_codec_laws {T} `{CodecLaws T} : CodecLaws (list T).
Proof. intros l. simpl. apply mapM_unpack_pack. Qed.

Global Instance set_codec_laws {T} `{Countable T, !Codec T, !CodecLaws T} :
  CodecLaws (gset T).
Proof.
  intros s. simpl. rewrite mapM_unpack_pack. simpl.
  by rewrite list_to_set_elements_L.
Qed.

Global Instance dataclass_codec_laws {A} `{MixinLaws A} :
  CodecLaws (H := dataclass_codec) A.
Proof. intros x. simpl. by rewrite from_dict_to_dict. Qed.

Lemma bind_Ok {A B} (a : A) (k : A → result B) : bind (Ok a) k = k a.
Proof. done. Qed.

Lemma required_lookup {T} `{CodecLaws T} (d : dict) (name : string) (x : T) :
  d !! name = Some (pack x) → required d name = Ok x.
Proof. intros Hd. unfold required, decode. by rewrite Hd, unpack_pack. Qed.

Lemma defaulted_lookup {T} `{CodecLaws T} (d : dict) (name : string) (x default : T) :
  d !! name = Some (pack x) → defaulted d name default = Ok x.
Proof. intros Hd. unfold defaulted, decode. by rewrite Hd, unpack_pack. Qed.

Lemma defaulted_absent {T} `{Codec T} (d : dict) (name : string) (default : T) :
  d !! name = None → defaulted d name default = Ok default.
Proof. intros Hd. unfold defaulted. by rewrite Hd. Qed.

(** Decodes the next field of a payload whose entries [lookup] finds. *)
Ltac decode_field lookup :=
  match goal with
  | |- context [bind (required ?d ?k) _] =>
      erewrite (required_lookup d k) by lookup
  | |- context [bind (defaulted ?d ?k ?default) _] =>
      first [ erewrite (defaulted_lookup d k) by lookup
            | rewrite (defaulted_absent d k) by lookup ]
  end;
  rewrite bind_Ok.

Global Instance PlayerSource_laws : MixinLaws PlayerSource.t.
Proof.
  intros x. change (PlayerSource.from_dict (to_dict x) = Ok x).
  unfold PlayerSource.from_dict.
  repeat decode_field ltac:(rewrite PlayerSource_to_dict_unfold; lookup_field).
  by destruct x.
Qed.

Global Instance PlayerMedia_laws : MixinLaws PlayerMedia.t.
Proof.
  intros x. change (PlayerMedia.from_dict (to_dict x) = Ok x).
  unfold PlayerMedia.from_dict.
  repeat decode_field ltac:(rewrite PlayerMedia_to_dict_unfold; lookup_field).
  by destruct x.
Qed.

Global Instance DeviceInfo_laws : MixinLaws DeviceInfo.t.
Proof.
  intros x. change (DeviceInfo.from_dict (to_dict x) = Ok x).
  unfold DeviceInfo.from_dict.
  repeat decode_field ltac:(rewrite DeviceInfo_to_dict_lookup by done; lookup_field).
  by destruct x.
Qed.

(** The decoders on payloads that were not encoded from an instance: a
    missing key without default is an error, an unknown key is ignored and
    a missing key with a default takes it. *)
Example PlayerSource_from_dict_missing :
  from_dict (A := PlayerSource.t) (<["name" := VStr "Line in"]> ∅)
  = Raise (MissingField "id").
Proof. vm_compute. reflexivity. Qed.

Example PlayerSource_from_dict_defaults :
  from_dict (A := PlayerSource.t)
    (<["id" := VStr "line_in"]> (<["name" := VStr "Line in"]>
       (<["colour" := VStr "red"]> ∅)))
  = Ok (PlayerSource.mk "line_in" "Line in" false).
Proof. vm_compute. reflexivity. Qed.

Example DeviceInfo_from_dict_empty : from_dict (A := DeviceInfo.t) ∅ = Ok DeviceInfo.init.
Proof. vm_compute. reflexivity. Qed.

(** Decoding the payload of a player gives the player back, with the two
    omitted attributes at their defaults. *)
Lemma Player_from_dict_to_dict `{Constants} (self : Player.t) :
  from_dict (to_dict self) = Ok (Player.set_internal None 0%float self).
Proof.
  change (Player.from_dict (to_dict self)
          = Ok (Player.set_internal None 0%float self)).
  unfold Player.from_dict.
  repeat decode_field ltac:(rewrite Player_to_dict_unfold; lookup_field).
  by destruct self.
Qed.

(** ** Equality *)

Lemma foldr_sum_elem {A} (f : A → nat → nat) (g : A → nat) (l : list A) (x : A) :
  (∀ y n, f y n = (g y + n)%nat) → x ∈ l → (g x ≤ foldr f 0 l)%nat.
Proof.
  intros Hf Hx. induction Hx as [x l|x y l _ IH]; simpl; rewrite Hf; lia.
Qed.

Lemma value_size_list_elem (l : list value) (a : value) :
  a ∈ l → (value_size a < value_size (VList l))%nat.
Proof.
  intros Ha. change (value_size a < S (foldr (λ a n, (value_size a + n)%nat) 0 l))%nat.
  apply Nat.lt_succ_r. by apply (foldr_sum_elem _ value_size).
Qed.

Lemma value_size_dict_elem (d : dict) (k : string) (a : value) :
  d !! k = Some a → (value_size a < value_size (VDict d))%nat.
Proof.
  intros Ha.
  change (value_size a < S (map_fold (λ _ a n, (value_size a + n)%nat) 0 d))%nat.
  rewrite map_fold_foldr. apply elem_of_map_to_list in Ha.
  apply Nat.lt_succ_r.
  apply (foldr_sum_elem _ (λ p, value_size p.2) _ (k, a)); [|done].
  by intros [k' a'] n.
Qed.

(** Induction on payload values. *)
Lemma value_induction (P : value → Prop) :
  P VNone →
  (∀ b, P (VBool b)) →
  (∀ z, P (VInt z)) →
  (∀ f, P (VFloat f)) →
  (∀ s, P (VStr s)) →
  (∀ l, Forall P l → P (VList l)) →
  (∀ d : dict, map_Forall (λ _, P) d → P (VDict d)) →
  ∀ v, P v.
Proof.
  intros HNone HBool HInt HFloat HStr HList HDict.
  assert (∀ n v, (value_size v < n)%nat → P v) as Hsize.
  { induction n as [|n IH]; intros v Hv; [lia|].
    destruct v as [|b|z|f|s|l|d]; auto.
    - apply HList, Forall_forall. intros a Ha. apply IH.
      pose proof (value_size_list_elem _ _ Ha). lia.
    - apply HDict. intros k a Ha. apply IH.
      pose proof (value_size_dict_elem _ _ _ Ha). lia. }
  intros v. apply (Hsize (S (value_size v))). lia.
Qed.

Global Instance str_py_eq_refl : PyEqRefl string.
Proof. intros s. by apply bool_decide_eq_true. Qed.
Global Instance bool_py_eq_refl : PyEqRefl bool.
Proof. by intros []. Qed.
Global Instance int_py_eq_refl : PyEqRefl Z.
Proof. intros z. apply Z.eqb_refl. Qed.
Global Instance StrEnum_py_eq_refl cls : PyEqRefl (StrEnum cls).
Proof. intros e. by apply bool_decide_eq_true. Qed.
Global Instance set_py_eq_refl {T} `{Countable T} : PyEqRefl (gset T).
Proof. intros s. by apply bool_decide_eq_true. Qed.

Global Instance option_py_eq_refl {T} `{PyEqRefl T} : PyEqRefl (option T).
Proof. intros [x|]; [apply (py_eq_refl (T := T) x)|done]. Qed.

Global Instance list_py_eq_refl {T} `{PyEqRefl T} : PyEqRefl (list T).
Proof.
  intros l. induction l as [|x l IH]; [done|].
  change (py_eq x x && py_eq l l = true). by rewrite (py_eq_refl (T := T) x), IH.
Qed.

Lemma value_eq_list (l m : list value) :
  value_eq (VList l) (VList m)
  = match l, m with
    | [], [] => true
    | a :: l', b :: m' => value_eq a b && value_eq (VList l') (VList m')
    | _, _ => false
    end.
Proof. by destruct l, m. Qed.

Lemma value_eq_dict (d e : dict) :
  value_eq (VDict d) (VDict e)
  = bool_decide (size d = size e)
    && map_fold (λ k a acc,
                   acc && match e !! k with
                          | Some b => value_eq a b
                          | None => false
                          end) true d.
Proof. done. Qed.

Lemma float_self_eq (f : float) : negb (is_nan f) = true → py_eq f f = true.
Proof. unfold is_nan, py_eq, float_py_eq. by destruct (PrimFloat.eqb f f). Qed.

Lemma option_float_self_eq (o : option float) :
  float_nan_free o = true → py_eq o o = true.
Proof. destruct o as [f|]; [apply float_self_eq|done]. Qed.

Lemma foldr_andb_elem {A} (f : A → bool → bool) (g : A → bool) (l : list A) (x : A) :
  (∀ y acc, f y acc = acc && g y) →
  foldr f true l = true → x ∈ l → g x = true.
Proof.
  intros Hf Hall Hx. induction Hx as [x l|x y l _ IH]; simpl in Hall;
    rewrite Hf in Hall; apply andb_prop in Hall as [Hl Hy]; [done|by apply IH].
Qed.

Lemma value_nan_free_dict_elem (d : dict) (k : string) (a : value) :
  value_nan_free (VDict d) = true → d !! k = Some a → value_nan_free a = true.
Proof.
  change (value_nan_free (VDict d))
    with (map_fold (λ _ a acc, acc && value_nan_free a) true d).
  rewrite map_fold_foldr. intros Hall Ha. apply elem_of_map_to_list in Ha.
  refine (foldr_andb_elem _ (λ p, value_nan_free p.2) _ (k, a) _ Hall Ha).
  by intros [k' a'] acc.
Qed.

(** A value that holds no [nan] is equal to itself. *)
Lemma value_self_eq (v : value) : value_nan_free v = true → value_eq v v = true.
Proof.
  induction v as [|b|z|f|s|l IH|d IH] using value_induction; intros Hnan.
  - done.
  - by apply bool_decide_eq_true.
  - by apply bool_decide_eq_true.
  - by apply float_self_eq.
  - apply (py_eq_refl (T := string)).
  - change (forallb value_nan_free l = true) in Hnan.
    induction IH as [|a l Ha _ IHl]; rewrite value_eq_list; [done|].
    simpl in Hnan. apply andb_prop in Hnan as [Hna Hnl].
    by rewrite (Ha Hna), (IHl Hnl).
  - rewrite value_eq_dict, bool_decide_eq_true_2 by done. simpl.
    rewrite map_fold_foldr.
    assert (Forall (λ '(k, a), d !! k = Some a) (map_to_list d)) as Hl.
    { apply Forall_forall. intros [k a]. apply elem_of_map_to_list. }
    induction Hl as [|[k a] l Hka _ IHl]; simpl; [done|].
    rewrite IHl, Hka. simpl. apply (IH k a Hka).
    by apply (value_nan_free_dict_elem d k).
Qed.

Lemma dict_self_eq (d : dict) : value_nan_free (VDict d) = true → py_eq d d = true.
Proof. apply (value_self_eq (VDict d)). Qed.

Lemma fld_sound {A T} `{PyEqRefl T, !Codec T} (name : string) (get : A → T) :
  field_sound (fld name get).
Proof. intros x y Hsame. simpl in *. rewrite Hsame. apply (py_eq_refl (T := T)). Qed.

Lemma fld_internal_sound {A T} `{PyEqRefl T, !Codec T} (name : string) (get : A → T) :
  field_sound (fld_internal name get).
Proof. intros x y Hsame. simpl in *. rewrite Hsame. apply (py_eq_refl (T := T)). Qed.

(** Instances that hold the same attributes in the compared fields are
    equal. *)
Lemma dataclass_eq_same {A} (fs : list (field A)) (x y : A) :
  Forall field_sound fs →
  Forall (λ f, f_compare f = true → f_same f x y) fs →
  dataclass_eq fs x y = true.
Proof.
  unfold dataclass_eq. intros Hsound Hsame.
  induction Hsound as [|f fs Hf _ IH]; [done|].
  apply Forall_cons in Hsame as [Hx Hsame].
  rewrite filter_cons. destruct (decide (f_compare f = true)) as [Hc|Hc].
  - simpl. rewrite (Hf x y (Hx Hc)). by apply IH.
  - by apply IH.
Qed.

(** The generated [__eq__] does not look at a field declared with
    [compare=False]. *)
Lemma dataclass_eq_compared {A} (fs : list (field A)) (x y x' y' : A) :
  Forall (λ f, f_compare f = true → f_eq f x y = f_eq f x' y') fs →
  dataclass_eq fs x y = dataclass_eq fs x' y'.
Proof.
  unfold dataclass_eq. induction 1 as [|f fs Hf _ IH]; [done|].
  rewrite filter_cons. destruct (decide (f_compare f = true)) as [Hc|Hc].
  - simpl. by rewrite (Hf Hc), IH.
  - done.
Qed.

Ltac fields_sound :=
  repeat (apply Forall_cons; split;
          [first [apply fld_sound | apply fld_internal_sound]; apply _|]);
  apply Forall_nil_2.

Lemma DeviceInfo_fields_sound : Forall field_sound DeviceInfo.fields.
Proof. unfold DeviceInfo.fields. fields_sound. Qed.

Lemma PlayerSource_fields_sound : Forall field_sound PlayerSource.fields.
Proof. unfold PlayerSource.fields. fields_sound. Qed.

Lemma dataclass_eq_refl {A} (fs : list (field A)) (x : A) :
  Forall field_sound fs →
  Forall (λ f, f_same f x x) fs →
  dataclass_eq fs x x = true.
Proof.
  intros Hsound Hsame. apply dataclass_eq_same; [done|].
  eapply Forall_impl; [exact Hsame|]. auto.
Qed.

Ltac fields_same := repeat (apply Forall_cons; split; [reflexivity|]); apply Forall_nil_2.

Global Instance DeviceInfo_py_eq_refl : PyEqRefl DeviceInfo.t.
Proof.
  intros x. apply dataclass_eq_refl; [apply DeviceInfo_fields_sound|].
  unfold fields, DeviceInfo_mixin, DeviceInfo.fields. fields_same.
Qed.

Global Instance PlayerSource_py_eq_refl : PyEqRefl PlayerSource.t.
Proof.
  intros x. apply dataclass_eq_refl; [apply PlayerSource_fields_sound|].
  unfold fields, PlayerSource_mixin, PlayerSource.fields. fields_same.
Qed.

(** Instances that are equal on every compared field are equal. *)
Lemma dataclass_eq_fields {A} (fs : list (field A)) (x y : A) :
  Forall (λ f, f_compare f = true → f_eq f x y = true) fs →
  dataclass_eq fs x y = true.
Proof.
  unfold dataclass_eq. induction 1 as [|f fs Hf _ IH]; [done|].
  rewrite filter_cons. destruct (decide (f_compare f = true)) as [Hc|Hc]; [|done].
  simpl. by rewrite (Hf Hc), IH.
Qed.

Lemma Forall_mp {A} (P Q : A → Prop) (l : list A) :
  Forall (λ x, P x → Q x) l → Forall P l → Forall Q l.
Proof.
  induction 1 as [|x l Hx _ IH]; [done|].
  intros [HP Hl]%Forall_cons. constructor; [by apply Hx|by apply IH].
Qed.

(** A media that holds no [nan] is equal to itself. *)
Lemma PlayerMedia_self_eq (media : PlayerMedia.t) :
  PlayerMedia.nan_free media = true → py_eq media media = true.
Proof.
  intros Hnan. apply dataclass_eq_fields. unfold PlayerMedia.fields.
  repeat (apply Forall_cons; split;
          [intros _; cbn [f_eq fld];
           first [ by apply py_eq_refl
                 | unfold PlayerMedia.nan_free in Hnan;
                   destruct (PlayerMedia.custom_data media);
                   [by apply dict_self_eq|done] ]|]).
  apply Forall_nil_2.
Qed.

(** Players that hold the same attributes in the compared fields, none of
    them a [nan], are equal. *)
Lemma Player_eq_same (p q : Player.t) :
  Player.nan_free p = true →
  Forall (λ f, f_compare f = true → f_same f p q) Player.fields →
  py_eq p q = true.
Proof.
  intros Hnan Hsame. apply dataclass_eq_fields.
  unfold Player.nan_free in Hnan.
  apply andb_prop in Hnan as [Hnan Hextra].
  apply andb_prop in Hnan as [Hnan Hmedia].
  apply andb_prop in Hnan as [Helapsed Hupdated].
  revert Hsame. apply Forall_mp. unfold Player.fields.
  repeat (apply Forall_cons; split;
          [intros Hf Hc;
           first [ discriminate Hc
                 | specialize (Hf Hc); cbn [f_eq f_same fld] in Hf |- *;
                   rewrite <- Hf;
                   first [ by apply py_eq_refl
                         | by apply option_float_self_eq
                         | by apply dict_self_eq
                         | destruct (Player.current_media p);
                           [by apply PlayerMedia_self_eq|done] ] ]|]).
  apply Forall_nil_2.
Qed.

(** The fields of [Player] declared with [compare=False] are the two
    server-side ones, and they are the ones left out of the payload. *)
Lemma Player_internal_fields :
  f_name <$> filter (λ f, f_compare f = false) Player.fields
  = ["previous_volume_level"; "last_poll"]
  ∧ f_name <$> filter (λ f, f_omit f = true) Player.fields
    = ["previous_volume_level"; "last_poll"].
Proof. split; vm_compute; reflexivity. Qed.

Lemma Player_set_internal_same (self : Player.t) (level : option Z) (poll : float) :
  Forall (λ f, f_compare f = true → f_same f (Player.set_internal level poll self) self)
    Player.fields.
Proof.
  unfold Player.fields.
  repeat (apply Forall_cons; split; [intros Hc; first [reflexivity | discriminate Hc]|]).
  apply Forall_nil_2.
Qed.

(** Every field of [Player] that is compared is another one than these two. *)
Lemma Player_compared_fields :
  Forall (λ f : field Player.t,
            f_compare f = true → f_name f ∉ ["previous_volume_level"; "last_poll"])
    Player.fields.
Proof. apply (bool_decide_unpack _). vm_compute. exact I. Qed.

(** C10 (as amended): the equality of players does not look at
    [previous_volume_level] and [last_poll]: two players that hold the same
    attributes in every other field, none of them a [nan], are equal,
    whatever these two hold, and changing these two never changes the
    result of a comparison; so the player decoded from the payload of a
    player that holds no [nan], in which the two are back at their
    defaults, is equal to that player. *)
Theorem Player_eq_ignores_internal `{Constants} :
  (∀ p q : Player.t,
     Player.nan_free p = true →
     Forall (λ f, f_name f ∉ ["previous_volume_level"; "last_poll"] → f_same f p q)
       Player.fields →
     py_eq p q = true)
  ∧ (∀ (p q : Player.t) (level level' : option Z) (poll poll' : float),
       py_eq (Player.set_internal level poll p) (Player.set_internal level' poll' q)
       = py_eq p q)
  ∧ (∀ p : Player.t,
       Player.nan_free p = true →
       ∃ p' : Player.t, from_dict (to_dict p) = Ok p' ∧ py_eq p' p = true).
Proof.
  split; [|split].
  - intros p q Hnan Hsame. apply Player_eq_same; [done|].
    pose proof Player_compared_fields as Hcompared.
    rewrite Forall_forall in Hsame, Hcompared. apply Forall_forall.
    intros f Hf Hc. by apply Hsame, Hcompared.
  - intros p q level level' poll poll'. apply dataclass_eq_compared.
    unfold Player.fields.
    repeat (apply Forall_cons; split; [intros Hc; first [reflexivity | discriminate Hc]|]).
    apply Forall_nil_2.
  - intros p Hnan. exists (Player.set_internal None 0%float p).
    split; [apply Player_from_dict_to_dict|].
    apply Player_eq_same; [exact Hnan|]. apply Player_set_internal_same.
Qed.

Lemma Player_eq_ignores_internal_witness :
  py_eq (example_player None None None None)
        (Player.set_internal None 0%float (example_player None None None None))
  = true.
Proof.
  apply (proj1 (@Player_eq_ignores_internal example_constants)); [reflexivity|].
  unfold Player.fields.
  repeat (apply Forall_cons; split;
          [intros Hn; first [reflexivity | exfalso; apply Hn; repeat constructor]|]).
  apply Forall_nil_2.
Defined.

(** C10, as stated, fails on a player that holds a [nan]: the player
    decoded from the payload of [nan_player] holds the same attributes as
    [nan_player] in every field other than [previous_volume_level] and
    [last_poll], and the two are not equal, for [nan == nan] is false. *)
Lemma Player_eq_nan_counterexample :
  from_dict (DataClassDictMixin := @Player_mixin example_constants)
    (to_dict (H := @Player_mixin example_constants) nan_player)
  = Ok (Player.set_internal None 0%float nan_player)
  ∧ Forall (λ f, f_name f ∉ ["previous_volume_level"; "last_poll"] →
                 f_same f nan_player (Player.set_internal None 0%float nan_player))
      Player.fields
  ∧ py_eq nan_player (Player.set_internal None 0%float nan_player) = false
  ∧ py_eq (Player.set_internal None 0%float nan_player) nan_player = false.
Proof.
  split; [apply (@Player_from_dict_to_dict example_constants)|].
  split; [|split; vm_compute; reflexivity].
  unfold Player.fields.
  repeat (apply Forall_cons; split;
          [intros Hn; first [reflexivity | exfalso; apply Hn; repeat constructor]|]).
  apply Forall_nil_2.
Qed.

(** ** Round trip *)

Section RoundTrip.

Import MediaItems.

Context (obj : MediaClass → Type).
Context `{media_mixin : ∀ c : MediaClass, DataClassDictMixin (obj c)}.
Context (media_eq : ∀ c1 c2 : MediaClass, obj c1 → obj c2 → bool).
Context `{Constants}.

Lemma item_unpack_pack (c : MediaClass) (u : obj c + obj ItemMapping) :
  unpack (Codec := item_codec obj c) (pack (Codec := item_codec obj c) u) = Some u
  ↔ item_round_trips obj c u.
Proof.
  destruct u as [item|ref]; simpl.
  - destruct (from_dict (A := obj c) (to_dict item)) as [item'|e].
    + split; [by intros [= ->]|by intros [= ->]].
    + split; [|done].
      by destruct (from_dict (A := obj ItemMapping) (to_dict item)).
  - destruct (from_dict (A := obj c) (to_dict ref)) as [item|e].
    + split; [done|]. by intros [[e' He'] _].
    + destruct (from_dict (A := obj ItemMapping) (to_dict ref)) as [ref'|e'].
      * split; [intros [= ->]; split; [by exists e|done]|by intros [_ [= ->]]].
      * split; [done|by intros [_ ?]].
Qed.

Lemma items_unpack_pack (c : MediaClass) (l : list (obj c + obj ItemMapping)) :
  unpack (Codec := list_codec (H := item_codec obj (media_mixin := media_mixin) c))
    (pack (Codec := list_codec (H := item_codec obj (media_mixin := media_mixin) c)) l)
  = Some l
  ↔ Forall (item_round_trips obj c) l.
Proof.
  cbn [unpack pack list_codec]. rewrite mapM_Some, Forall2_fmap_l.
  split.
  - intros Hl. apply Forall_forall. intros u Hu. apply item_unpack_pack.
    revert Hu. generalize u. apply Forall_forall.
    clear u. induction l as [|u l IH]; [by constructor|].
    apply Forall2_cons in Hl as [Hu Hl]. constructor; [done|by apply IH].
  - intros Hl. induction Hl as [|u l Hu _ IH]; constructor; [|done].
    by apply item_unpack_pack.
Qed.

Lemma defaulted_items_Ok (d : dict) (name : string) (c : MediaClass)
    (l default : list (obj c + obj ItemMapping)) :
  d !! name = Some (pack (Codec := list_codec (H := item_codec obj c)) l) →
  defaulted (H := list_codec (H := item_codec obj c)) d name default = Ok l
  ↔ Forall (item_round_trips obj c) l.
Proof.
  intros Hd. rewrite <- items_unpack_pack. unfold defaulted, decode. rewrite Hd.
  destruct (unpack _) as [l'|]; [|done]. split; by intros [= ->].
Qed.

Lemma SearchResults_to_dict_unfold (self : SearchResults obj) :
  to_dict (H := SearchResults_mixin obj media_eq) self
  = to_dict_fields (SearchResults_fields obj media_eq) self.
Proof. reflexivity. Qed.

(** Search results are decoded from their payload to themselves exactly
    when each of their elements is: the container adds nothing of its
    own. *)
Lemma SearchResults_from_dict_to_dict (self : SearchResults obj) :
  from_dict (DataClassDictMixin := SearchResults_mixin obj media_eq)
    (to_dict (H := SearchResults_mixin obj media_eq) self)
  = Ok self
  ↔ elements_round_trip obj self.
Proof.
  change (SearchResults_from_dict obj
            (to_dict (H := SearchResults_mixin obj media_eq) self) = Ok self
          ↔ elements_round_trip obj self).
  unfold SearchResults_from_dict, elements_round_trip.
  rewrite <- (defaulted_items_Ok (to_dict (H := SearchResults_mixin obj media_eq) self)
                "artists" Artist (artists obj self) [])
    by (rewrite SearchResults_to_dict_unfold; lookup_field).
  rewrite <- (defaulted_items_Ok (to_dict (H := SearchResults_mixin obj media_eq) self)
                "albums" Album (albums obj self) [])
    by (rewrite SearchResults_to_dict_unfold; lookup_field).
  rewrite <- (defaulted_items_Ok (to_dict (H := SearchResults_mixin obj media_eq) self)
                "tracks" Track (tracks obj self) [])
    by (rewrite SearchResults_to_dict_unfold; lookup_field).
  rewrite <- (defaulted_items_Ok (to_dict (H := SearchResults_mixin obj media_eq) self)
                "playlists" Playlist (playlists obj self) [])
    by (rewrite SearchResults_to_dict_unfold; lookup_field).
  rewrite <- (defaulted_items_Ok (to_dict (H := SearchResults_mixin obj media_eq) self)
                "radio" Radio (radio obj self) [])
    by (rewrite SearchResults_to_dict_unfold; lookup_field).
  rewrite <- (defaulted_items_Ok (to_dict (H := SearchResults_mixin obj media_eq) self)
                "audiobooks" Audiobook (audiobooks obj self) [])
    by (rewrite SearchResults_to_dict_unfold; lookup_field).
  rewrite <- (defaulted_items_Ok (to_dict (H := SearchResults_mixin obj media_eq) self)
                "podcasts" Podcast (podcasts obj self) [])
    by (rewrite SearchResults_to_dict_unfold; lookup_field).
  split.
  - intros Hdec.
    repeat match type of Hdec with
      | bind ?r _ = _ =>
          let l := fresh "l" in
          let Hl := fresh "Hl" in
          destruct r as [l|] eqn:Hl; [rewrite bind_Ok in Hdec|discriminate Hdec]
      end.
    injection Hdec as <-. by repeat split.
  - intros (-> & -> & -> & -> & -> & -> & ->). by destruct self.
Qed.


End RoundTrip.


(** * Further properties of the media item dispatch *)

Section DispatchTable.

Import MediaItems.

Context (obj : MediaClass → Type).
Context `{media_mixin : ∀ c : MediaClass, DataClassDictMixin (obj c)}.

Implicit Types (media_item : dict) (v : value) (tag : string).

Lemma eq_str_true v tag : eq_str v tag = true → v = VStr tag.
Proof.
  destruct v as [| | | |s| |]; simpl; try done.
  intros Hs. apply bool_decide_eq_true in Hs. by subst.
Qed.

Lemma eq_str_false v tag : eq_str v tag = false → v ≠ VStr tag.
Proof.
  intros Hf ->. simpl in Hf. by apply bool_decide_eq_false in Hf.
Qed.

Lemma decode_as_Ok c c' media_item (o : obj c) :
  decode_as obj c' media_item = Ok (Instance c o) →
  c = c' ∧ from_dict (A := obj c) media_item = Ok o.
Proof.
  unfold decode_as, rmap, bind.
  destruct (from_dict (A := obj c') media_item) as [o'|e] eqn:Hd; [|done].
  intros [= Hc Hsig]. subst c'. split; [done|]. rewrite Hd. f_equal.
  by apply (Eqdep_dec.inj_pair2_eq_dec _ MediaClass_eq_dec) in Hsig.
Qed.

Lemma decode_as_Raise c media_item e :
  decode_as obj c media_item = Raise e →
  from_dict (A := obj c) media_item = Raise e.
Proof.
  unfold decode_as, rmap, bind.
  destruct (from_dict (A := obj c) media_item); [intros; discriminate|].
  by intros [= ->].
Qed.

(** The dispatch, one test at a time: a full item with a [media_type]
    entry [v] is decoded by the class of the first literal [v] is equal
    to, and rejected when there is none. *)
Lemma media_from_dict_full media_item v :
  is_Some (media_item !! "provider_mappings") →
  media_item !! "media_type" = Some v →
  media_from_dict obj media_item
  = foldr (λ '(tag, c) rest, if eq_str v tag then decode_as obj c media_item else rest)
      (Raise (InvalidDataError "Unknown media type")) dispatch_table.
Proof.
  intros Hpm Hmt. unfold media_from_dict.
  rewrite (contains_true _ _ Hpm). simpl.
  by rewrite !(media_type_is_lookup _ _ _ Hmt).
Qed.

(** X1: a full item whose [media_type] is one of the nine literals is
    decoded by the [from_dict] of the class paired with that literal. *)
Theorem media_from_dict_dispatch media_item tag c :
  is_Some (media_item !! "provider_mappings") →
  media_item !! "media_type" = Some (VStr tag) →
  (tag, c) ∈ dispatch_table →
  media_from_dict obj media_item = decode_as obj c media_item.
Proof.
  intros Hpm Hmt Hin. rewrite (media_from_dict_full _ _ Hpm Hmt).
  unfold dispatch_table in *.
  repeat (apply elem_of_cons in Hin as [[= -> ->]|Hin]; [reflexivity|]).
  by apply elem_of_nil in Hin.
Qed.

(** X2: whatever [media_from_dict] returns was produced by the decoder of
    its class from the whole payload, and the class is read off the
    payload: [ItemMapping] when there is no [provider_mappings], the class
    paired with the [media_type] string otherwise. *)
Theorem media_from_dict_returns media_item c (o : obj c) :
  media_from_dict obj media_item = Ok (Instance c o) →
  from_dict (A := obj c) media_item = Ok o
  ∧ ((media_item !! "provider_mappings" = None ∧ c = ItemMapping)
     ∨ (is_Some (media_item !! "provider_mappings")
        ∧ ∃ tag, media_item !! "media_type" = Some (VStr tag)
                 ∧ (tag, c) ∈ dispatch_table)).
Proof.
  destruct (media_item !! "provider_mappings") as [pm|] eqn:Hpm.
  - destruct (media_item !! "media_type") as [v|] eqn:Hmt.
    + rewrite (media_from_dict_full _ v) by (by rewrite ?Hpm).
      unfold dispatch_table. simpl.
      repeat (destruct (eq_str v _) eqn:Htag;
              [apply eq_str_true in Htag as ->;
               intros [<- Ho]%decode_as_Ok; split; [done|];
               right; split; [by eexists|];
               eexists; split; [done|]; set_solver|clear Htag]).
      done.
    + unfold media_from_dict. rewrite (contains_true _ _ (mk_is_Some _ _ Hpm)).
      simpl. by rewrite (media_type_is_missing _ _ Hmt).
  - unfold media_from_dict. rewrite (contains_false _ _ Hpm). simpl.
    intros [-> Ho]%decode_as_Ok. split; [done|]. by left.
Qed.


End DispatchTable.

Lemma media_from_dict_dispatch_witness :
  MediaItems.media_from_dict MediaItems.raw_obj (media_mixin := MediaItems.raw_mixin)
    track_item
  = Ok (MediaItems.Instance MediaItems.Track track_item).
Proof.
  apply (@media_from_dict_dispatch MediaItems.raw_obj MediaItems.raw_mixin
           track_item "track" MediaItems.Track).
  - exists (VList []). reflexivity.
  - reflexivity.
  - unfold MediaItems.dispatch_table. repeat constructor.
Defined.

Lemma media_from_dict_track_item :
  MediaItems.media_from_dict MediaItems.raw_obj (media_mixin := MediaItems.raw_mixin)
    track_item
  = Ok (MediaItems.Instance MediaItems.Track track_item).
Proof. vm_compute. reflexivity. Qed.

Lemma media_from_dict_bogus_item :
  MediaItems.media_from_dict MediaItems.raw_obj (media_mixin := MediaItems.raw_mixin)
    bogus_item
  = Raise (InvalidDataError "Unknown media type").
Proof. vm_compute. reflexivity. Qed.

Lemma media_from_dict_returns_witness :
  from_dict (DataClassDictMixin := MediaItems.raw_mixin MediaItems.Track) track_item
  = Ok track_item.
Proof.
  exact (proj1 (@media_from_dict_returns MediaItems.raw_obj MediaItems.raw_mixin
                  track_item MediaItems.Track track_item media_from_dict_track_item)).
Defined.

Lemma media_from_dict_classes_witness :
  MediaItems.Track ≠ MediaItems.PlaylistTrack
  ∧ MediaItems.Track ≠ MediaItems.BrowseFolder.
Proof.
  exact (@media_from_dict_classes MediaItems.raw_obj MediaItems.raw_mixin
           track_item MediaItems.Track track_item media_from_dict_track_item).
Defined.


(** * Further properties of the player model *)

(** ** The derived properties *)

(** X5: whatever the clock shows, [corrected_elapsed_time] is [None]
    exactly when [elapsed_time] or [elapsed_time_last_updated] is unset. *)
Theorem corrected_elapsed_time_None (self : Player.t) (now : float) :
  run_at now (Player.corrected_elapsed_time self) = None
  ↔ Player.elapsed_time self = None ∨ Player.elapsed_time_last_updated self = None.
Proof.
  unfold Player.corrected_elapsed_time.
  destruct (Player.elapsed_time self) as [elapsed|],
    (Player.elapsed_time_last_updated self) as [last_updated|]; simpl.
  - destruct (py_eq _ _); simpl; (split; [done|by intros [|]]).
  - split; [by right|done].
  - split; [by left|done].
  - split; [by left|done].
Qed.

(** Payloads of two instances whose fields of a given name are encoded
    alike have the same entry under that name. *)
Lemma to_dict_fields_agree {A} (fs : list (field A)) (x y : A) (k : string) :
  Forall (λ f, f_name f = k → f_pack f x = f_pack f y) fs →
  to_dict_fields fs x !! k = to_dict_fields fs y !! k.
Proof.
  induction 1 as [|f fs Hf _ IH]; simpl; [done|].
  destruct (f_omit f); [done|].
  destruct (decide (f_name f = k)) as [Hk|Hk].
  - rewrite <- Hk, !lookup_insert_eq. f_equal. by apply Hf.
  - by rewrite !lookup_insert_ne.
Qed.

(** X6: the setter of [current_item_id] changes [current_media] and
    nothing else: putting the former media back gives the former player,
    and every entry of the payload other than [current_media] is as it was. *)
Theorem set_current_item_id_changes_media_only `{Constants}
    (self : Player.t) (uri : string) :
  Player.set_current_media (Player.current_media self)
    (Player.set_current_item_id uri self) = self
  ∧ ∀ k : string,
      k ≠ "current_media" →
      to_dict (Player.set_current_item_id uri self) !! k = to_dict self !! k.
Proof.
  split; [by destruct self|].
  intros k Hk. rewrite !Player_to_dict_unfold. apply to_dict_fields_agree.
  unfold Player.fields.
  repeat (apply Forall_cons; split;
          [intros Hn; first [reflexivity | simpl in Hn; congruence]|]).
  apply Forall_nil_2.
Qed.

Lemma set_current_item_id_changes_media_only_witness :
  to_dict (H := @Player_mixin example_constants)
    (Player.set_current_item_id "uri:123"
       (example_player None None None (Some example_media))) !! "name"
  = to_dict (H := @Player_mixin example_constants)
      (example_player None None None (Some example_media)) !! "name".
Proof.
  apply (proj2 (@set_current_item_id_changes_media_only example_constants
                  (example_player None None None (Some example_media)) "uri:123")).
  discriminate.
Defined.

(** ** The hook of [DeviceInfo] on any mapping *)

Lemma post_serialize_insert_address (self self' : DeviceInfo.t) (d : dict) (v : value) :
  DeviceInfo.post_serialize self (<["address" := v]> d)
  = DeviceInfo.post_serialize self' d.
Proof.
  unfold DeviceInfo.post_serialize, dict_get.
  rewrite lookup_insert_ne by done. by rewrite insert_insert_eq.
Qed.

(** X7: [__post_serialize__] keeps every entry other than [address], and
    always sets [address]: to the [ip_address] entry when that entry is
    true in a test, to the empty string otherwise (so neither to [None] nor
    to an empty container). *)
Theorem post_serialize_frame (self : DeviceInfo.t) (d : dict) :
  (∀ k : string,
     k ≠ "address" → DeviceInfo.post_serialize self d !! k = d !! k)
  ∧ ∃ v : value,
      DeviceInfo.post_serialize self d !! "address" = Some v
      ∧ ((v = VStr "" ∧ truthy (dict_get d "ip_address") = false)
         ∨ (d !! "ip_address" = Some v ∧ truthy v = true)).
Proof.
  unfold DeviceInfo.post_serialize. split.
  - intros k Hk. by rewrite lookup_insert_ne.
  - rewrite lookup_insert_eq. eexists. split; [done|].
    unfold py_or, dict_get.
    destruct (d !! "ip_address") as [ip|]; [|by left].
    destruct (truthy ip) eqn:Hip; [by right|by left].
Qed.

Lemma post_serialize_frame_witness :
  DeviceInfo.post_serialize DeviceInfo.init
    (<["ip_address" := VNone]> (<["model" := VStr "Amp"]> ∅)) !! "model"
  = (<["ip_address" := VNone]> (<["model" := VStr "Amp"]> ∅) : dict) !! "model".
Proof.
  apply (proj1 (post_serialize_frame DeviceInfo.init
                  (<["ip_address" := VNone]> (<["model" := VStr "Amp"]> ∅)))).
  discriminate.
Defined.

(** X8: running [__post_serialize__] again changes nothing, and an
    [address] entry that the mapping already had does not survive. *)
Theorem post_serialize_idempotent (self : DeviceInfo.t) (d : dict) :
  DeviceInfo.post_serialize self (DeviceInfo.post_serialize self d)
  = DeviceInfo.post_serialize self d
  ∧ ∀ stale : value,
      DeviceInfo.post_serialize self (<["address" := stale]> d)
      = DeviceInfo.post_serialize self d.
Proof.
  split; [|intros stale; apply post_serialize_insert_address].
  unfold DeviceInfo.post_serialize at 2. apply post_serialize_insert_address.
Qed.

(** ** The decoders on any payload *)

Lemma required_insert_ne {T} `{Codec T} (d : dict) (k name : string) (v : value) :
  k ≠ name → required (T := T) (<[k := v]> d) name = required d name.
Proof. intros Hk. unfold required. by rewrite lookup_insert_ne. Qed.

Lemma defaulted_insert_ne {T} `{Codec T} (d : dict) (k name : string) (v : value)
    (default : T) :
  k ≠ name → defaulted (<[k := v]> d) name default = defaulted d name default.
Proof. intros Hk. unfold defaulted. by rewrite lookup_insert_ne. Qed.

(** Proves [k ≠ name] from the fact that [k] is no declared name. *)
Ltac undeclared Hk :=
  let Heq := fresh in
  intros Heq; apply Hk; rewrite Heq;
  apply (bool_decide_unpack _); vm_compute; exact I.

(** X9: the decoders read the entries under the declared field names and
    no other: an entry under any other key, such as the [address] that the
    encoder of [DeviceInfo] adds, does not change what is decoded. *)
Theorem from_dict_ignores_undeclared `{Constants} (d : dict) (k : string) (v : value) :
  (k ∉ f_name <$> DeviceInfo.fields →
   from_dict (A := DeviceInfo.t) (<[k := v]> d) = from_dict d)
  ∧ (k ∉ f_name <$> PlayerMedia.fields →
     from_dict (A := PlayerMedia.t) (<[k := v]> d) = from_dict d)
  ∧ (k ∉ f_name <$> PlayerSource.fields →
     from_dict (A := PlayerSource.t) (<[k := v]> d) = from_dict d)
  ∧ (k ∉ f_name <$> Player.fields →
     from_dict (A := Player.t) (<[k := v]> d) = from_dict d).
Proof.
  split; [|split; [|split]]; intros Hk.
  - change (DeviceInfo.from_dict (<[k := v]> d) = DeviceInfo.from_dict d).
    unfold DeviceInfo.from_dict.
    by rewrite !defaulted_insert_ne by undeclared Hk.
  - change (PlayerMedia.from_dict (<[k := v]> d) = PlayerMedia.from_dict d).
    unfold PlayerMedia.from_dict.
    by rewrite !required_insert_ne, !defaulted_insert_ne by undeclared Hk.
  - change (PlayerSource.from_dict (<[k := v]> d) = PlayerSource.from_dict d).
    unfold PlayerSource.from_dict.
    by rewrite !required_insert_ne, !defaulted_insert_ne by undeclared Hk.
  - change (Player.from_dict (<[k := v]> d) = Player.from_dict d).
    unfold Player.from_dict.
    by rewrite !required_insert_ne, !defaulted_insert_ne by undeclared Hk.
Qed.

Lemma from_dict_ignores_undeclared_witness :
  from_dict (A := DeviceInfo.t) (<["address" := VStr "10.0.0.9"]> (to_dict example_device))
  = from_dict (to_dict example_device).
Proof.
  apply (proj1 (@from_dict_ignores_undeclared example_constants
                  (to_dict example_device) "address" (VStr "10.0.0.9"))).
  apply (bool_decide_unpack _). vm_compute. exact I.
Defined.

(** X10: the decoder of [Player] takes [previous_volume_level] and
    [last_poll] from a payload that carries them, although the encoder never
    writes them: with the two entries put back, the payload of a player is
    decoded to that very player. *)
Theorem Player_from_dict_internal `{Constants} (self : Player.t) :
  from_dict
    (<["previous_volume_level" := pack (Player.previous_volume_level self)]>
       (<["last_poll" := pack (Player.last_poll self)]> (to_dict self)))
  = Ok self.
Proof.
  change (Player.from_dict
            (<["previous_volume_level" := pack (Player.previous_volume_level self)]>
               (<["last_poll" := pack (Player.last_poll self)]> (to_dict self)))
          = Ok self).
  unfold Player.from_dict.
  repeat decode_field
    ltac:(first [ rewrite lookup_insert_eq; reflexivity
                | rewrite lookup_insert_ne by done;
                  first [ rewrite lookup_insert_eq; reflexivity
                        | rewrite lookup_insert_ne by done;
                          rewrite Player_to_dict_unfold; lookup_field ] ]).
  by destruct self.
Qed.

Lemma required_missing {T} `{Codec T} (d : dict) (name : string) :
  d !! name = None → required (T := T) d name = Raise (MissingField name).
Proof. intros Hd. unfold required. by rewrite Hd. Qed.

(** Goes through the fields of a decoder until one fails. *)
Ltac decoder_fails :=
  repeat match goal with
    | |- ∃ e, bind (Raise ?e') _ = Raise e => by exists e'
    | |- ∃ e, bind ?r _ = Raise e =>
        let x := fresh "x" in
        let e' := fresh "e" in
        destruct r as [x|e']; [rewrite bind_Ok|by exists e']
    end.

(** X11: a payload that lacks one of the fields declared without a default
    is rejected: [player_id], [provider], [type], [name], [available] and
    [device_info] for a [Player], [uri] for a [PlayerMedia], [id] and [name]
    for a [PlayerSource]. *)
Theorem from_dict_required `{Constants} (d : dict) (k : string) :
  d !! k = None →
  (k ∈ ["player_id"; "provider"; "type"; "name"; "available"; "device_info"] →
   ∃ e, from_dict (A := Player.t) d = Raise e)
  ∧ (k = "uri" → from_dict (A := PlayerMedia.t) d = Raise (MissingField "uri"))
  ∧ (k ∈ ["id"; "name"] → ∃ e, from_dict (A := PlayerSource.t) d = Raise e).
Proof.
  intros Hd. split; [|split].
  - intros Hk. change (∃ e, Player.from_dict d = Raise e).
    unfold Player.from_dict.
    repeat (apply elem_of_cons in Hk as [->|Hk];
            [rewrite (required_missing d _ Hd); decoder_fails|]).
    by apply elem_of_nil in Hk.
  - intros ->. change (PlayerMedia.from_dict d = Raise (MissingField "uri")).
    unfold PlayerMedia.from_dict. by rewrite (required_missing d _ Hd).
  - intros Hk. change (∃ e, PlayerSource.from_dict d = Raise e).
    unfold PlayerSource.from_dict.
    repeat (apply elem_of_cons in Hk as [->|Hk];
            [rewrite (required_missing d _ Hd); decoder_fails|]).
    by apply elem_of_nil in Hk.
Qed.

Lemma from_dict_required_witness :
  ∃ e, from_dict (A := Player.t) (DataClassDictMixin := @Player_mixin example_constants)
         (delete "device_info"
            (to_dict (H := @Player_mixin example_constants)
               (example_player None None None None)))
       = Raise e.
Proof.
  apply (proj1 (@from_dict_required example_constants
                  (delete "device_info"
                     (to_dict (H := @Player_mixin example_constants)
                        (example_player None None None None)))
                  "device_info" (lookup_delete_eq _ _))).
  repeat constructor.
Defined.

Lemma defaulted_not_missing {T} `{Codec T} (d : dict) (name k : string) (default : T) :
  defaulted d name default ≠ Raise (MissingField k).
Proof.
  unfold defaulted, decode. destruct (d !! name) as [v|]; [|done].
  by destruct (unpack v).
Qed.

(** X12: every field of [DeviceInfo] has a default, so its decoder never
    reports a missing field, whatever the payload. *)
Theorem DeviceInfo_from_dict_never_missing (d : dict) (k : string) :
  from_dict (A := DeviceInfo.t) d ≠ Raise (MissingField k).
Proof.
  change (DeviceInfo.from_dict d ≠ Raise (MissingField k)).
  unfold DeviceInfo.from_dict.
  repeat match goal with
    | |- bind ?r _ ≠ _ =>
        let Hr := fresh "Hr" in
        destruct r eqn:Hr;
        [rewrite bind_Ok; clear Hr
        |simpl; intros [= ->]; by apply defaulted_not_missing in Hr]
    end.
  done.
Qed.

(** ** Equality of instances *)

Global Instance str_py_eq_leibniz : PyEqLeibniz string.
Proof. intros s t Heq. by apply bool_decide_eq_true in Heq. Qed.
Global Instance bool_py_eq_leibniz : PyEqLeibniz bool.
Proof. intros [] []; done. Qed.
Global Instance int_py_eq_leibniz : PyEqLeibniz Z.
Proof. intros x y Heq. by apply Z.eqb_eq. Qed.
Global Instance StrEnum_py_eq_leibniz cls : PyEqLeibniz (StrEnum cls).
Proof. intros a b Heq. by apply bool_decide_eq_true in Heq. Qed.
Global Instance set_py_eq_leibniz {T} `{Countable T} : PyEqLeibniz (gset T).
Proof. intros s t Heq. by apply bool_decide_eq_true in Heq. Qed.

Global Instance option_py_eq_leibniz {T} `{PyEqLeibniz T} : PyEqLeibniz (option T).
Proof.
  intros [x|] [y|] Heq; try done. f_equal. by apply (py_eq_leibniz (T := T)).
Qed.

Global Instance list_py_eq_leibniz {T} `{PyEqLeibniz T} : PyEqLeibniz (list T).
Proof.
  intros l. induction l as [|x l IH]; intros [|y m] Heq; try done.
  change (py_eq x y && py_eq l m = true) in Heq.
  apply andb_prop in Heq as [Hx Hl]. f_equal.
  - by apply (py_eq_leibniz (T := T)).
  - by apply IH.
Qed.

Lemma fld_leibniz {A T} `{PyEqLeibniz T, !Codec T} (name : string) (get : A → T) :
  field_leibniz (fld name get).
Proof. intros x y Heq. simpl in *. by apply (py_eq_leibniz (T := T)). Qed.

(** Equal instances are equal on every compared field. *)
Lemma dataclass_eq_true {A} (fs : list (field A)) (x y : A) :
  dataclass_eq fs x y = true →
  Forall (λ f, f_compare f = true → f_eq f x y = true) fs.
Proof.
  unfold dataclass_eq. induction fs as [|f fs IH]; [by constructor|].
  rewrite filter_cons. destruct (decide (f_compare f = true)) as [Hc|Hc].
  - simpl. intros [Hf Hfs]%andb_prop. constructor; [done|by apply IH].
  - intros Hfs. constructor; [done|by apply IH].
Qed.

Lemma dataclass_eq_leibniz {A} (fs : list (field A)) (x y : A) :
  Forall (λ f, f_compare f = true ∧ field_leibniz f) fs →
  dataclass_eq fs x y = true →
  Forall (λ f, f_same f x y) fs.
Proof.
  intros Hfs Heq. apply dataclass_eq_true in Heq.
  rewrite Forall_forall in Hfs, Heq. apply Forall_forall.
  intros f Hf. destruct (Hfs f Hf) as [Hc Hl]. by apply Hl, Heq.
Qed.

Ltac fields_leibniz :=
  repeat (apply Forall_cons; split;
          [split; [reflexivity|apply fld_leibniz; apply _]|]);
  apply Forall_nil_2.

Global Instance DeviceInfo_py_eq_leibniz : PyEqLeibniz DeviceInfo.t.
Proof.
  intros x y Heq.
  apply (dataclass_eq_leibniz DeviceInfo.fields) in Heq;
    [|unfold DeviceInfo.fields; fields_leibniz].
  unfold DeviceInfo.fields in Heq.
  repeat (apply Forall_cons in Heq as [? Heq]).
  destruct x, y; simpl in *; by subst.
Qed.

Global Instance PlayerSource_py_eq_leibniz : PyEqLeibniz PlayerSource.t.
Proof.
  intros x y Heq.
  apply (dataclass_eq_leibniz PlayerSource.fields) in Heq;
    [|unfold PlayerSource.fields; fields_leibniz].
  unfold PlayerSource.fields in Heq.
  repeat (apply Forall_cons in Heq as [? Heq]).
  destruct x, y; simpl in *; by subst.
Qed.

(** X13: two [DeviceInfo] values, and two [PlayerSource] values, are equal
    exactly when they hold the same attributes in all their fields. *)
Theorem DeviceInfo_eq_iff :
  (∀ x y : DeviceInfo.t, py_eq x y = true ↔ x = y)
  ∧ (∀ x y : PlayerSource.t, py_eq x y = true ↔ x = y).
Proof.
  split; intros x y; (split; [apply py_eq_leibniz|intros ->; apply py_eq_refl]).
Qed.

(** The fields of [Player] whose attribute holds a float or values of any
    type, on which equal attributes need not be the same, and the two
    fields that are not compared. *)
Lemma Player_fields_leibniz :
  Forall (λ f : field Player.t,
            f_name f ∉ ["elapsed_time"; "elapsed_time_last_updated";
                        "current_media"; "extra_data";
                        "previous_volume_level"; "last_poll"] →
            f_compare f = true ∧ field_leibniz f)
    Player.fields.
Proof.
  unfold Player.fields.
  repeat (apply Forall_cons; split;
          [intros Hn;
           first [ split; [reflexivity|apply fld_leibniz; apply _]
                 | exfalso; apply Hn; repeat constructor ]|]).
  apply Forall_nil_2.
Qed.

(** X14: players that are equal hold the same attribute in every field,
    except possibly in the two that are not compared and in those that hold
    floats or values of any type ([elapsed_time],
    [elapsed_time_last_updated], [current_media], [extra_data]); in
    particular they have the same [player_id]. *)
Theorem Player_eq_same_attributes (p q : Player.t) :
  py_eq p q = true →
  Forall (λ f, f_name f ∉ ["elapsed_time"; "elapsed_time_last_updated";
                           "current_media"; "extra_data";
                           "previous_volume_level"; "last_poll"] →
               f_same f p q)
    Player.fields
  ∧ Player.player_id p = Player.player_id q.
Proof.
  intros Heq. apply dataclass_eq_true in Heq.
  pose proof Player_fields_leibniz as Hl.
  assert (Forall (λ f, f_name f ∉ ["elapsed_time"; "elapsed_time_last_updated";
                                   "current_media"; "extra_data";
                                   "previous_volume_level"; "last_poll"] →
                       f_same f p q) Player.fields) as Hsame.
  { rewrite Forall_forall in Hl, Heq. apply Forall_forall.
    intros f Hf Hn. destruct (Hl f Hf Hn) as [Hc Hfl]. by apply Hfl, Heq. }
  split; [done|].
  unfold Player.fields in Hsame. apply Forall_cons in Hsame as [Hid _].
  apply Hid. apply (bool_decide_unpack _). vm_compute. exact I.
Qed.

Lemma Player_eq_same_attributes_witness :
  Player.player_id (example_player None None None None)
  = Player.player_id (Player.set_internal None 0%float (example_player None None None None)).
Proof.
  apply (Player_eq_same_attributes (example_player None None None None)
           (Player.set_internal None 0%float (example_player None None None None))).
  vm_compute. reflexivity.
Defined.

(** ** Payloads *)

(** X15: the payload of a [DeviceInfo] has eight keys, the seven declared
    names and [address]. *)
Theorem DeviceInfo_to_dict_dom (self : DeviceInfo.t) :
  dom (to_dict self)
  = {["address"]} ∪ list_to_set (serialized_names DeviceInfo.fields)
  ∧ size (to_dict self) = 8.
Proof.
  assert (dom (to_dict self)
          = {["address"]} ∪ list_to_set (serialized_names DeviceInfo.fields)) as Hdom.
  { by rewrite DeviceInfo_to_dict_unfold, dom_insert_L, to_dict_fields_dom. }
  split; [done|]. rewrite <- size_dom, Hdom. vm_compute. reflexivity.
Qed.

Lemma DeviceInfo_address_entry (self : DeviceInfo.t) :
  to_dict self !! "address" = Some (VStr (default "" (DeviceInfo.ip_address self))).
Proof.
  assert (to_dict_fields DeviceInfo.fields self !! "ip_address"
          = Some (pack (DeviceInfo.ip_address self))) as Hfield by lookup_field.
  rewrite DeviceInfo_to_dict_unfold, lookup_insert_eq. unfold dict_get.
  rewrite Hfield. f_equal. apply py_or_str.
Qed.

(** X17: the payload of a [Player] carries the payload of its
    [device_info], alias included: a client finds [address] under
    [device_info]. *)
Theorem Player_to_dict_device_info `{Constants} (self : Player.t) :
  ∃ d : dict,
    to_dict self !! "device_info" = Some (VDict d)
    ∧ d = to_dict (Player.device_info self)
    ∧ d !! "address"
      = Some (VStr (default "" (DeviceInfo.ip_address (Player.device_info self)))).
Proof.
  exists (to_dict (Player.device_info self)). split; [|split; [done|]].
  - rewrite Player_to_dict_unfold. lookup_field.
  - apply DeviceInfo_address_entry.
Qed.

Lemma to_dict_fields_agree_written {A} (fs : list (field A)) (x y : A) (k : string) :
  Forall (λ f, f_omit f = false → f_name f = k → f_pack f x = f_pack f y) fs →
  to_dict_fields fs x !! k = to_dict_fields fs y !! k.
Proof.
  induction 1 as [|f fs Hf _ IH]; simpl; [done|].
  destruct (f_omit f); [done|].
  destruct (decide (f_name f = k)) as [Hk|Hk].
  - rewrite <- Hk, !lookup_insert_eq. f_equal. by apply Hf.
  - by rewrite !lookup_insert_ne.
Qed.

(** X18: what a client decodes from the payload of a player gives the same
    [corrected_elapsed_time] and the same [current_item_id] as the player
    itself and has the same members in its two sets; encoded again, it
    gives the same entry under every key other than those of the two sets,
    [supported_features] and [can_group_with], which may be listed in
    another order. *)
Theorem Player_decoded_behaves_alike `{Constants} (self : Player.t) :
  ∃ decoded : Player.t,
    from_dict (to_dict self) = Ok decoded
    ∧ Player.corrected_elapsed_time decoded = Player.corrected_elapsed_time self
    ∧ Player.current_item_id decoded = Player.current_item_id self
    ∧ Player.supported_features decoded = Player.supported_features self
    ∧ Player.can_group_with decoded = Player.can_group_with self
    ∧ ∀ k : string,
        k ∉ ["supported_features"; "can_group_with"] →
        to_dict decoded !! k = to_dict self !! k.
Proof.
  exists (Player.set_internal None 0%float self).
  split; [apply Player_from_dict_to_dict|].
  do 4 (split; [done|]).
  intros k Hk. rewrite !Player_to_dict_unfold. apply to_dict_fields_agree_written.
  unfold Player.fields.
  repeat (apply Forall_cons; split;
          [intros Ho Hn; first [reflexivity | discriminate Ho]|]).
  apply Forall_nil_2.
Qed.

Lemma Player_decoded_behaves_alike_witness :
  ∃ decoded : Player.t,
    from_dict (DataClassDictMixin := @Player_mixin example_constants)
      (to_dict (H := @Player_mixin example_constants)
         (example_player None None None None))
    = Ok decoded
    ∧ to_dict (H := @Player_mixin example_constants) decoded !! "name"
      = to_dict (H := @Player_mixin example_constants)
          (example_player None None None None) !! "name".
Proof.
  destruct (@Player_decoded_behaves_alike example_constants
              (example_player None None None None))
    as (decoded & Hdecoded & _ & _ & _ & _ & Hentries).
  exists decoded. split; [exact Hdecoded|].
  apply Hentries. intros Hin.
  apply elem_of_cons in Hin as [Hin|Hin]; [discriminate Hin|].
  apply elem_of_cons in Hin as [Hin|Hin]; [discriminate Hin|].
  by apply elem_of_nil in Hin.
Defined.

(** X19: a payload with a [uri] and none of the other declared entries is
    decoded to [PlayerMedia(uri)], the media that the setter of
    [current_item_id] builds. *)
Theorem PlayerMedia_from_dict_uri_only (d : dict) (uri : string) :
  d !! "uri" = Some (VStr uri) →
  Forall (λ k, d !! k = None)
    ["media_type"; "title"; "artist"; "album"; "image_url"; "duration";
     "queue_id"; "queue_item_id"; "custom_data"] →
  from_dict d = Ok (PlayerMedia.init uri).
Proof.
  intros Huri Hrest.
  change (PlayerMedia.from_dict d = Ok (PlayerMedia.init uri)).
  unfold PlayerMedia.from_dict.
  change (d !! "uri" = Some (pack uri)) in Huri.
  rewrite (required_lookup d "uri" uri Huri), bind_Ok.
  repeat (apply Forall_cons in Hrest as [Hk Hrest];
          rewrite (defaulted_absent d _ _ Hk), bind_Ok; clear Hk).
  done.
Qed.

Lemma PlayerMedia_from_dict_uri_only_witness :
  from_dict (<["uri" := VStr "uri:123"]> (<["colour" := VStr "red"]> ∅))
  = Ok (PlayerMedia.init "uri:123").
Proof.
  apply PlayerMedia_from_dict_uri_only; [reflexivity|].
  repeat (apply Forall_cons; split; [reflexivity|]). apply Forall_nil_2.
Defined.

(** ** Search results on any payload *)

Section SearchResultsDecoder.

Import MediaItems.

Context (obj : MediaClass → Type).
Context `{media_mixin : ∀ c : MediaClass, DataClassDictMixin (obj c)}.

(** X20: every category of [SearchResults] has the empty list as default,
    so its decoder never reports a missing field, whatever the payload and
    whatever the decoders of the media item classes do. *)
Theorem SearchResults_from_dict_never_missing (d : dict) (k : string) :
  SearchResults_from_dict obj d ≠ Raise (MissingField k).
Proof.
  unfold SearchResults_from_dict.
  repeat match goal with
    | |- bind ?r _ ≠ _ =>
        let Hr := fresh "Hr" in
        destruct r eqn:Hr;
        [rewrite bind_Ok; clear Hr
        |simpl; intros [= ->]; by apply defaulted_not_missing in Hr]
    end.
  done.
Qed.

End SearchResultsDecoder.
